(** * The prize roulette mini app: wheel geometry, spin animation and the
      client's spin protocol (mini_app/static/script.js), with the award
      transaction of the server as the specification describes it.

    Numbers.  A JavaScript Number that carries an angle or a fraction of the
    animation is read as a real number: [Math.PI] is [PI], [+ - * /] are the
    field operations, [%] is the remainder of the truncated division,
    [Math.min] is [Rmin] and [Math.pow (x, 3)] is [x ^ 3].  Rounding of
    binary64 is outside this reading: an equation between angles that holds
    over the reals holds in the engine up to rounding only.  What is said
    of where the wheel comes to rest, modulo a turn, is therefore said of
    the doubles: the module [Binary64] evaluates the rotation target with
    the IEEE operations.  Prize amounts, array indices and the millisecond
    clock of [Date.now ()] are integers. *)

From Stdlib Require Import Reals ZArith List String Ascii Bool Arith.
From Stdlib Require Import Lia Lra Psatz.
From Stdlib Require Import DecimalString.
From Stdlib Require DecimalPos DecimalZ.
From Stdlib Require Import Floats.SpecFloat.
Import ListNotations.

Open Scope R_scope.

(** ** Arithmetic of JavaScript numbers *)

Module JsNumber.

(** Rounding toward zero, the quotient behind [%]. *)
Definition trunc (x : R) : Z :=
  if Rle_dec 0 x then Int_part x else (- Int_part (- x))%Z.

(** [x % m]: the result has the sign of the dividend. *)
Definition rem (x m : R) : R := x - IZR (trunc (x / m)) * m.

(** [String (n)] of an integral number, for the amounts the engine prints
    digit by digit: whole numbers below [1e21] that a double holds
    exactly. *)
Definition toString (n : Z) : string := NilZero.string_of_int (Z.to_int n).

End JsNumber.

(** What a call hands back: its value, or the exception it threw. *)
Inductive Exception := Error (name : string).

Inductive Completion (A : Type) :=
| Returns (a : A)
| Throws (e : Exception).

Arguments Returns {A} a.
Arguments Throws {A} e.

(** ** Configuration *)

Definition PRIZES : list Z := [5000; 10000; 15000; 20000; 25000; 30000]%Z.

Definition COLORS : list string :=
  ["#FF6B6B"; "#4ECDC4"; "#45B7D1"; "#FFA07A"; "#98D8C8"; "#F39C12"]%string.

Definition RADIUS : R := 150.

(** [Array.prototype.indexOf]: the first position holding the value, [-1]
    when there is none. *)
Fixpoint indexOf_from (l : list Z) (x : Z) (i : Z) : Z :=
  match l with
  | [] => (-1)%Z
  | y :: rest => if Z.eqb y x then i else indexOf_from rest x (i + 1)%Z
  end.

Definition indexOf (l : list Z) (x : Z) : Z := indexOf_from l x 0.

(** ** The wheel *)

(** One pass of the loop of [drawWheel]: the filled sector and its label.
    [COLORS[i]] and [PRIZES[i]] are array reads, [None] where JavaScript
    gives [undefined].  The angles are real numbers: sums that are equal
    over the reals, as the end of one sector and the start of the next,
    may differ by a rounding in the engine. *)
Record Segment := {
  fillStyle : option string;
  startAngle : R;
  endAngle : R;
  textRotation : R;
  textOffset : R;
  prizeLabel : option Z
}.

Definition arc : R := (2 * PI) / INR (List.length PRIZES).

Definition drawSegment (rotation : R) (i : nat) : Segment :=
  let angle := rotation + INR i * arc in
  {| fillStyle := nth_error COLORS i;
     startAngle := angle;
     endAngle := angle + arc;
     textRotation := angle + arc / 2;
     textOffset := RADIUS * (65 / 100);
     prizeLabel := nth_error PRIZES i |}.

Definition drawWheel (rotation : R) : list Segment :=
  let segments := List.length PRIZES in
  map (drawSegment rotation) (seq 0 segments).

(** ** The target rotation of [animateSpin] *)

Definition pointerAngle : R := - PI / 2.

Definition segmentStartAngle (targetIndex : Z) : R := IZR targetIndex * arc.

Definition segmentCenterAngle (targetIndex : Z) : R :=
  segmentStartAngle targetIndex + arc / 2.

Definition targetAngle (targetIndex : Z) : R :=
  pointerAngle - segmentCenterAngle targetIndex.

Definition normalizedTargetAngle (targetIndex : Z) : R :=
  JsNumber.rem (JsNumber.rem (targetAngle targetIndex) (2 * PI) + 2 * PI) (2 * PI).

Definition fullRotations : R := 5.

(** The rotation target as a real number; [Binary64.totalRotation] is the
    double the engine computes. *)
Definition totalRotation (targetIndex : Z) : R :=
  (fullRotations * 2 * PI) + normalizedTargetAngle targetIndex.

Definition duration : R := 4000.

(** The closure of the inner function [animate]: what [animateSpin] fixed
    before the first frame.  [targetPrize] is the argument of [animateSpin],
    a number, or [None] for [undefined] (a reply without a prize). *)
Record Animation := {
  targetPrize : option Z;
  rotationTarget : R;
  startTime : Z
}.

(** [progress] and [currentAngle] in a frame that reads [Date.now () = now]. *)
Definition progressAt (a : Animation) (now : Z) : R :=
  let elapsed := IZR (now - startTime a) in
  Rmin (elapsed / duration) 1.

Definition easeOutCubic (progress : R) : R := 1 - (1 - progress) ^ 3.

Definition angleAt (a : Animation) (now : Z) : R :=
  easeOutCubic (progressAt a now) * rotationTarget a.

(** ** The same rotation target in binary64

    The expressions of [animateSpin] once more, now with the operations of
    IEEE 754 double precision, rounding to nearest even, as the engine
    computes them.  [%] is exact in binary64: the remainder of two doubles
    is a double. *)

Module Binary64.

Definition prec : Z := 53.

Definition emax : Z := 1024.

Definition number (n : Z) : spec_float := binary_normalize prec emax n 0 false.

(** [Math.PI], the double [0x1.921fb54442d18p+1]. *)
Definition PI : spec_float := S754_finite false 7074237752028440 (-51).

Definition add : spec_float -> spec_float -> spec_float := SFadd prec emax.

Definition sub : spec_float -> spec_float -> spec_float := SFsub prec emax.

Definition mul : spec_float -> spec_float -> spec_float := SFmul prec emax.

Definition div : spec_float -> spec_float -> spec_float := SFdiv prec emax.

(** [x % y] on doubles. *)
Definition rem (x y : spec_float) : spec_float :=
  match x, y with
  | S754_finite sx mx ex, S754_finite _ my ey =>
      let e := Z.min ex ey in
      let r := Z.rem (Zpos mx * 2 ^ (ex - e)) (Zpos my * 2 ^ (ey - e)) in
      if (r =? 0)%Z then S754_zero sx
      else binary_normalize prec emax (cond_Zopp sx r) e sx
  | S754_zero sx, S754_finite _ _ _ => S754_zero sx
  | S754_zero sx, S754_infinity _ => S754_zero sx
  | S754_finite _ _ _, S754_infinity _ => x
  | _, _ => S754_nan
  end.

Definition arc : spec_float :=
  div (mul (number 2) PI) (number (Z.of_nat (List.length PRIZES))).

Definition pointerAngle : spec_float := div (SFopp PI) (number 2).

Definition segmentStartAngle (targetIndex : Z) : spec_float :=
  mul (number targetIndex) arc.

Definition segmentCenterAngle (targetIndex : Z) : spec_float :=
  add (segmentStartAngle targetIndex) (div arc (number 2)).

Definition targetAngle (targetIndex : Z) : spec_float :=
  sub pointerAngle (segmentCenterAngle targetIndex).

Definition normalizedTargetAngle (targetIndex : Z) : spec_float :=
  rem (add (rem (targetAngle targetIndex) (mul (number 2) PI))
           (mul (number 2) PI))
      (mul (number 2) PI).

Definition totalRotation (targetIndex : Z) : spec_float :=
  add (mul (mul (number 5) (number 2)) PI) (normalizedTargetAngle targetIndex).

(** How many turns past the pointer the centre of the target segment is
    on the wheel drawn at the rotation target:
    [(rotation + i * arc + arc / 2 - pointerAngle) / (2 * Math.PI)]. *)
Definition turnsPastPointer (targetIndex : Z) : spec_float :=
  div (sub (add (add (totalRotation targetIndex)
                     (mul (number targetIndex) arc))
                (div arc (number 2)))
           pointerAngle)
      (mul (number 2) PI).

(** Within [2 ^ -40] of the whole number [k]. *)
Definition near (x : spec_float) (k : Z) : bool :=
  SFltb (SFabs (sub x (number k))) (binary_normalize prec emax 1 (-40) false).

(** [2 * Math.PI]. *)
Definition twoPi : spec_float := mul (number 2) PI.

(** The angle of the label of the target segment on the wheel drawn at the
    rotation target: [rotation + i * arc + arc / 2]. *)
Definition centreAngle (targetIndex : Z) : spec_float :=
  add (add (totalRotation targetIndex) (mul (number targetIndex) arc))
      (div arc (number 2)).

(** The pointer [k] whole turns on: [pointerAngle + k * (2 * Math.PI)]. *)
Definition pointerAfterTurns (k : Z) : spec_float :=
  add pointerAngle (mul (number k) twoPi).

(** Within [2 ^ -40] of each other. *)
Definition close (x y : spec_float) : bool :=
  SFltb (SFabs (sub x y)) (binary_normalize prec emax 1 (-40) false).

End Binary64.

(** ** The host: Telegram's WebApp object and the engine's locale support *)

Record Host := {
  userId : option Z;              (* tg.initDataUnsafe?.user?.id *)
  HapticFeedback : bool;          (* whether tg.HapticFeedback is there *)
  toLocaleString : Z -> string    (* amount.toLocaleString ('ru-RU') *)
}.

Definition formatPrize (h : Host) (amount : Z) : string :=
  (toLocaleString h amount ++ " ₽")%string.

(** [JSON.stringify ({ prize: prize })]. *)
Definition quote : string := String "034"%char EmptyString.

Definition stringifyPrize (amount : Z) : string :=
  ("{" ++ quote ++ "prize" ++ quote ++ ":" ++ JsNumber.toString amount ++ "}")%string.

(** The body of a reply of [POST /api/spin], as [spin] reads it:
    [data.error] and [data.prize], each [None] where the body has no such
    member (or [null]).  A body that is not an object makes the first read
    of a member throw inside the [try] block, which the [catch] block
    answers as it answers a body that does not parse. *)
Record SpinBody := {
  data_error : option string;
  data_prize : option Z
}.

Record Response := {
  ok : bool;
  json : Completion SpinBody
}.

(** ** The page and the state of the script *)

Record Dom := {
  canvasSpinning : bool;            (* 'spinning' in canvas.classList *)
  canvasOpacity : option string;    (* canvas.style.opacity *)
  canvasWheel : list Segment;       (* the last drawing of drawWheel *)
  spinBtnDisabled : bool;
  spinBtnDisplay : option string;   (* spinBtn.style.display *)
  loadingHidden : bool;             (* 'hidden' in loadingDiv.classList *)
  resultHidden : bool;
  resultPrizeText : string;
  alreadySpunHidden : bool;
  alreadySpunPrizeText : string
}.

Record App := {
  currentAngle : R;
  isSpinning : bool;
  animationId : option nat;
  dom : Dom;
  (* callbacks the host holds for the script *)
  awaitingSpin : list Z;                  (* spin () suspended at its await, by telegram_id *)
  frameRequests : list (nat * Animation); (* requestAnimationFrame (animate) *)
  timeouts : list Z;                      (* the timer of showResult, by prize *)
  nextFrameId : nat
}.

Inductive Message :=
| NoUserId
| ServerSaid (detail : string)
| SpinFailed
| NoConnection.

(** Calls into the host, in the order the script makes them. *)
Inductive Effect :=
| Fetch (telegram_id : Z)            (* POST /api/spin *)
| RequestAnimationFrame (id : nat)
| SetTimeout (ms : Z) (amount : Z)
| SendData (data : string)
| Close
| Alert (m : Message)
| ConsoleError
| ImpactOccurred
| NotificationOccurred.

(** *** Assignments *)

Definition set_canvasSpinning (b : bool) (d : Dom) : Dom :=
  {| canvasSpinning := b; canvasOpacity := canvasOpacity d;
     canvasWheel := canvasWheel d; spinBtnDisabled := spinBtnDisabled d;
     spinBtnDisplay := spinBtnDisplay d; loadingHidden := loadingHidden d;
     resultHidden := resultHidden d; resultPrizeText := resultPrizeText d;
     alreadySpunHidden := alreadySpunHidden d;
     alreadySpunPrizeText := alreadySpunPrizeText d |}.

Definition set_canvasOpacity (o : option string) (d : Dom) : Dom :=
  {| canvasSpinning := canvasSpinning d; canvasOpacity := o;
     canvasWheel := canvasWheel d; spinBtnDisabled := spinBtnDisabled d;
     spinBtnDisplay := spinBtnDisplay d; loadingHidden := loadingHidden d;
     resultHidden := resultHidden d; resultPrizeText := resultPrizeText d;
     alreadySpunHidden := alreadySpunHidden d;
     alreadySpunPrizeText := alreadySpunPrizeText d |}.

Definition set_canvasWheel (w : list Segment) (d : Dom) : Dom :=
  {| canvasSpinning := canvasSpinning d; canvasOpacity := canvasOpacity d;
     canvasWheel := w; spinBtnDisabled := spinBtnDisabled d;
     spinBtnDisplay := spinBtnDisplay d; loadingHidden := loadingHidden d;
     resultHidden := resultHidden d; resultPrizeText := resultPrizeText d;
     alreadySpunHidden := alreadySpunHidden d;
     alreadySpunPrizeText := alreadySpunPrizeText d |}.

Definition set_spinBtnDisabled (b : bool) (d : Dom) : Dom :=
  {| canvasSpinning := canvasSpinning d; canvasOpacity := canvasOpacity d;
     canvasWheel := canvasWheel d; spinBtnDisabled := b;
     spinBtnDisplay := spinBtnDisplay d; loadingHidden := loadingHidden d;
     resultHidden := resultHidden d; resultPrizeText := resultPrizeText d;
     alreadySpunHidden := alreadySpunHidden d;
     alreadySpunPrizeText := alreadySpunPrizeText d |}.

Definition set_spinBtnDisplay (o : option string) (d : Dom) : Dom :=
  {| canvasSpinning := canvasSpinning d; canvasOpacity := canvasOpacity d;
     canvasWheel := canvasWheel d; spinBtnDisabled := spinBtnDisabled d;
     spinBtnDisplay := o; loadingHidden := loadingHidden d;
     resultHidden := resultHidden d; resultPrizeText := resultPrizeText d;
     alreadySpunHidden := alreadySpunHidden d;
     alreadySpunPrizeText := alreadySpunPrizeText d |}.

Definition set_loadingHidden (b : bool) (d : Dom) : Dom :=
  {| canvasSpinning := canvasSpinning d; canvasOpacity := canvasOpacity d;
     canvasWheel := canvasWheel d; spinBtnDisabled := spinBtnDisabled d;
     spinBtnDisplay := spinBtnDisplay d; loadingHidden := b;
     resultHidden := resultHidden d; resultPrizeText := resultPrizeText d;
     alreadySpunHidden := alreadySpunHidden d;
     alreadySpunPrizeText := alreadySpunPrizeText d |}.

Definition set_resultHidden (b : bool) (d : Dom) : Dom :=
  {| canvasSpinning := canvasSpinning d; canvasOpacity := canvasOpacity d;
     canvasWheel := canvasWheel d; spinBtnDisabled := spinBtnDisabled d;
     spinBtnDisplay := spinBtnDisplay d; loadingHidden := loadingHidden d;
     resultHidden := b; resultPrizeText := resultPrizeText d;
     alreadySpunHidden := alreadySpunHidden d;
     alreadySpunPrizeText := alreadySpunPrizeText d |}.

Definition set_resultPrizeText (t : string) (d : Dom) : Dom :=
  {| canvasSpinning := canvasSpinning d; canvasOpacity := canvasOpacity d;
     canvasWheel := canvasWheel d; spinBtnDisabled := spinBtnDisabled d;
     spinBtnDisplay := spinBtnDisplay d; loadingHidden := loadingHidden d;
     resultHidden := resultHidden d; resultPrizeText := t;
     alreadySpunHidden := alreadySpunHidden d;
     alreadySpunPrizeText := alreadySpunPrizeText d |}.

Definition set_alreadySpunHidden (b : bool) (d : Dom) : Dom :=
  {| canvasSpinning := canvasSpinning d; canvasOpacity := canvasOpacity d;
     canvasWheel := canvasWheel d; spinBtnDisabled := spinBtnDisabled d;
     spinBtnDisplay := spinBtnDisplay d; loadingHidden := loadingHidden d;
     resultHidden := resultHidden d; resultPrizeText := resultPrizeText d;
     alreadySpunHidden := b;
     alreadySpunPrizeText := alreadySpunPrizeText d |}.

Definition set_alreadySpunPrizeText (t : string) (d : Dom) : Dom :=
  {| canvasSpinning := canvasSpinning d; canvasOpacity := canvasOpacity d;
     canvasWheel := canvasWheel d; spinBtnDisabled := spinBtnDisabled d;
     spinBtnDisplay := spinBtnDisplay d; loadingHidden := loadingHidden d;
     resultHidden := resultHidden d; resultPrizeText := resultPrizeText d;
     alreadySpunHidden := alreadySpunHidden d;
     alreadySpunPrizeText := t |}.

Definition with_dom (f : Dom -> Dom) (s : App) : App :=
  {| currentAngle := currentAngle s; isSpinning := isSpinning s;
     animationId := animationId s; dom := f (dom s);
     awaitingSpin := awaitingSpin s; frameRequests := frameRequests s;
     timeouts := timeouts s; nextFrameId := nextFrameId s |}.

Definition set_currentAngle (x : R) (s : App) : App :=
  {| currentAngle := x; isSpinning := isSpinning s;
     animationId := animationId s; dom := dom s;
     awaitingSpin := awaitingSpin s; frameRequests := frameRequests s;
     timeouts := timeouts s; nextFrameId := nextFrameId s |}.

Definition set_isSpinning (b : bool) (s : App) : App :=
  {| currentAngle := currentAngle s; isSpinning := b;
     animationId := animationId s; dom := dom s;
     awaitingSpin := awaitingSpin s; frameRequests := frameRequests s;
     timeouts := timeouts s; nextFrameId := nextFrameId s |}.

Definition set_awaitingSpin (l : list Z) (s : App) : App :=
  {| currentAngle := currentAngle s; isSpinning := isSpinning s;
     animationId := animationId s; dom := dom s;
     awaitingSpin := l; frameRequests := frameRequests s;
     timeouts := timeouts s; nextFrameId := nextFrameId s |}.

Definition set_frameRequests (l : list (nat * Animation)) (s : App) : App :=
  {| currentAngle := currentAngle s; isSpinning := isSpinning s;
     animationId := animationId s; dom := dom s;
     awaitingSpin := awaitingSpin s; frameRequests := l;
     timeouts := timeouts s; nextFrameId := nextFrameId s |}.

Definition set_timeouts (l : list Z) (s : App) : App :=
  {| currentAngle := currentAngle s; isSpinning := isSpinning s;
     animationId := animationId s; dom := dom s;
     awaitingSpin := awaitingSpin s; frameRequests := frameRequests s;
     timeouts := l; nextFrameId := nextFrameId s |}.

(** A fresh handle from [requestAnimationFrame], kept in [animationId]. *)
Definition enqueue_frame (a : Animation) (s : App) : App :=
  {| currentAngle := currentAngle s; isSpinning := isSpinning s;
     animationId := Some (nextFrameId s); dom := dom s;
     awaitingSpin := awaitingSpin s;
     frameRequests := frameRequests s ++ [(nextFrameId s, a)];
     timeouts := timeouts s; nextFrameId := S (nextFrameId s) |}.

(** *** Statements in sequence *)

Definition Script : Type := App -> App * list Effect.

Definition skip : Script := fun s => (s, []).

Definition andThen (f g : Script) : Script :=
  fun s => (fst (g (fst (f s))), snd (f s) ++ snd (g (fst (f s)))).

Notation "f ;; g" := (andThen f g) (at level 61, right associativity).

Definition assign (f : App -> App) : Script := fun s => (f s, []).

Definition call (e : Effect) : Script := fun s => (s, [e]).

Definition when (b : bool) (f : Script) : Script := if b then f else skip.

(** ** The functions of the script *)

Definition requestAnimationFrame (a : Animation) : Script :=
  fun s => (enqueue_frame a s, [RequestAnimationFrame (nextFrameId s)]).

Definition setTimeout (ms : Z) (amount : Z) : Script :=
  fun s => (set_timeouts (timeouts s ++ [amount]) s, [SetTimeout ms amount]).

Definition fetchSpin (telegram_id : Z) : Script :=
  fun s => (set_awaitingSpin (awaitingSpin s ++ [telegram_id]) s,
            [Fetch telegram_id]).

Definition paint : Script :=
  fun s => (with_dom (set_canvasWheel (drawWheel (currentAngle s))) s, []).

(** [showResult (prize)]: fills the result panel and arms the timer that
    reports to the bot. *)
Definition showResult (h : Host) (amount : Z) : Script :=
  assign (with_dom (set_resultPrizeText (formatPrize h amount))) ;;
  assign (with_dom (set_resultHidden false)) ;;
  setTimeout 3000 amount.

(** The callback of that timer; [sent] is how [tg.sendData] came back. *)
Definition sendResult (amount : Z) (sent : Completion unit) : Script :=
  let data := stringifyPrize amount in
  call (SendData data) ;;
  match sent with
  | Returns _ => call Close
  | Throws _ =>
      call ConsoleError ;;
      assign (with_dom (set_resultHidden true))
  end.

(** One run of the inner function [animate], at [Date.now () = now].  On an
    [undefined] prize [showResult] throws at [formatPrize], before any of
    its statements: the exception leaves the callback and the feedback
    after the call is not reached. *)
Definition animate (h : Host) (a : Animation) (now : Z) : Script :=
  let progress := progressAt a now in
  assign (set_currentAngle (angleAt a now)) ;;
  paint ;;
  if Rlt_dec progress 1 then
    requestAnimationFrame a
  else
    assign (with_dom (set_canvasSpinning false)) ;;
    assign (set_isSpinning false) ;;
    match targetPrize a with
    | Some amount =>
        showResult h amount ;;
        when (HapticFeedback h) (call NotificationOccurred)
    | None => skip
    end.

(** [PRIZES.indexOf (targetPrize)]: no element of the table is
    [undefined]. *)
Definition indexOfPrize (prize : option Z) : Z :=
  match prize with
  | Some amount => indexOf PRIZES amount
  | None => (-1)%Z
  end.

(** [animateSpin (targetPrize)], entered at [Date.now () = now].  No
    statement of its body throws, whatever [indexOf] answers. *)
Definition animateSpin (now : Z) (prize : option Z) (s : App)
  : Completion (App * list Effect) :=
  let targetIndex := indexOfPrize prize in
  let a := {| targetPrize := prize;
              rotationTarget := totalRotation targetIndex;
              startTime := now |} in
  Returns ((assign (with_dom (set_canvasSpinning true)) ;;
            requestAnimationFrame a) s).

(** [spin ()] up to its [await]. *)
Definition spin (h : Host) : Script :=
  fun s =>
    if isSpinning s then (s, [])
    else
      match userId h with
      | None => call (Alert NoUserId) s
      | Some uid =>
          if Z.eqb uid 0 then call (Alert NoUserId) s
          else
            (assign (set_isSpinning true) ;;
             assign (with_dom (set_spinBtnDisabled true)) ;;
             assign (with_dom (set_loadingHidden false)) ;;
             when (HapticFeedback h) (call ImpactOccurred) ;;
             fetchSpin uid) s
      end.

(** The [catch] block of [spin]. *)
Definition spinCatch : Script :=
  call ConsoleError ;;
  assign (with_dom (set_loadingHidden true)) ;;
  assign (set_isSpinning false) ;;
  assign (with_dom (set_spinBtnDisabled false)) ;;
  call (Alert NoConnection).

(** [data.error || '...'] in the alert. *)
Definition alertText (e : option string) : Message :=
  match e with
  | Some d => if String.eqb d "" then SpinFailed else ServerSaid d
  | None => SpinFailed
  end.

Definition isAlreadySpun (e : option string) : bool :=
  match e with
  | Some d => String.eqb d "Already spun"
  | None => false
  end.

Definition showAlreadySpun (h : Host) (amount : Z) : Script :=
  assign (with_dom (set_alreadySpunPrizeText (formatPrize h amount))) ;;
  assign (with_dom (set_alreadySpunHidden false)) ;;
  assign (with_dom (set_spinBtnDisplay (Some "none"%string))) ;;
  assign (with_dom (set_canvasOpacity (Some "0.5"%string))).

(** [spin ()] from its [await] on: [settled] is how [fetch] and then
    [response.json ()] came back, [now] the clock [animateSpin] reads.  In
    the already-spun branch [formatPrize (data.prize)] throws on a prize
    that is missing, before the panel is touched, and the [catch] block
    takes over. *)
Definition spinResume (h : Host) (settled : Completion Response) (now : Z)
  : Script :=
  match settled with
  | Throws _ => spinCatch
  | Returns response =>
      match json response with
      | Throws _ => spinCatch
      | Returns data =>
          assign (with_dom (set_loadingHidden true)) ;;
          if ok response then
            fun s =>
              match animateSpin now (data_prize data) s with
              | Returns r => r
              | Throws _ => spinCatch s
              end
          else
            assign (set_isSpinning false) ;;
            assign (with_dom (set_spinBtnDisabled false)) ;;
            if isAlreadySpun (data_error data) then
              match data_prize data with
              | Some amount => showAlreadySpun h amount
              | None => spinCatch
              end
            else
              call (Alert (alertText (data_error data)))
      end
  end.

(** ** The event loop *)

Inductive Event :=
| Click                                             (* the listener on spinBtn *)
| SpinSettled (settled : Completion Response) (now : Z)
| Frame (now : Z)                                   (* the host runs the frame callbacks *)
| TimerFired (sent : Completion unit)               (* the timer of showResult *)
| ResultClicked.

(** The callbacks requested before a frame run in it, in request order;
    what they request runs in a later frame. *)
Fixpoint runCallbacks (h : Host) (now : Z) (reqs : list (nat * Animation))
  : Script :=
  match reqs with
  | [] => skip
  | (_, a) :: rest => animate h a now ;; runCallbacks h now rest
  end.

Definition handle (h : Host) (e : Event) : Script :=
  fun s =>
    match e with
    | Click => spin h s
    | SpinSettled settled now =>
        match awaitingSpin s with
        | [] => (s, [])
        | _ :: rest =>
            (assign (set_awaitingSpin rest) ;; spinResume h settled now) s
        end
    | Frame now =>
        (assign (set_frameRequests []) ;;
         runCallbacks h now (frameRequests s)) s
    | TimerFired sent =>
        match timeouts s with
        | [] => (s, [])
        | amount :: rest =>
            (assign (set_timeouts rest) ;; sendResult amount sent) s
        end
    | ResultClicked => assign (with_dom (set_resultHidden true)) s
    end.

Fixpoint run (h : Host) (events : list Event) : Script :=
  match events with
  | [] => skip
  | e :: rest => handle h e ;; run h rest
  end.

(** The script when [init] has drawn the wheel and put the listener on the
    button, on a page whose elements are in the state [page]. *)
Definition initial (page : Dom) : App :=
  {| currentAngle := 0;
     isSpinning := false;
     animationId := None;
     dom := set_canvasWheel (drawWheel 0) page;
     awaitingSpin := [];
     frameRequests := [];
     timeouts := [];
     nextFrameId := 1 |}.

(** ** The award service *)

Module AwardService.

(** Modelled from the spec: the persisted record of section 3, one row of
    the table [(telegram_id PRIMARY KEY, prize_amount, spun_at)]; the
    server (mini_app/server.py) is not among the sources. *)
Record SpinRecord := {
  user_id : Z;
  prize_amount : Z;
  spun_at : Z
}.

(** Modelled from the spec: the store is the sequence of rows inserted so
    far; nothing is updated or deleted on the hot path. *)
Definition Store : Type := list SpinRecord.

(** Modelled from the spec: the prize table of the scenario of section 8. *)
Definition PrizeTable : list Z := [5000; 10000; 15000; 20000; 25000; 30000]%Z.

(** Modelled from the spec: the look-up by key that both operations make. *)
Definition lookup (u : Z) (s : Store) : option SpinRecord :=
  find (fun r => Z.eqb (user_id r) u) s.

(** How many rows a user has. *)
Definition rows_of (u : Z) (s : Store) : nat :=
  List.length (filter (fun r => Z.eqb (user_id r) u) s).

(** Modelled from the spec: what [AwardSpin] answers, the prize or the
    failure [AlreadySpun] with the prize recorded before. *)
Inductive Reply :=
| Awarded (amount : Z)
| AlreadySpun (amount : Z).

Definition amount_of (r : Reply) : Z :=
  match r with
  | Awarded p => p
  | AlreadySpun p => p
  end.

Definition is_awarded (r : Reply) : bool :=
  match r with
  | Awarded _ => true
  | AlreadySpun _ => false
  end.

(** Modelled from the spec: the uniform choice, by the number [roll] the
    random source gave this call. *)
Definition choose (roll : nat) : Z :=
  nth (roll mod List.length PrizeTable) PrizeTable 0%Z.

(** Modelled from the spec: [AwardSpin] of section 4.1, the check for an
    existing record and the insert as one indivisible operation on the
    store: a pre-existing record answers [AlreadySpun] with the recorded
    amount, otherwise the chosen prize is persisted and returned. *)
Definition AwardSpin (u : Z) (roll : nat) (now : Z) (s : Store)
  : Store * Reply :=
  match lookup u s with
  | Some r => (s, AlreadySpun (prize_amount r))
  | None =>
      let p := choose roll in
      (s ++ [{| user_id := u; prize_amount := p; spun_at := now |}], Awarded p)
  end.

(** Modelled from the spec: a request in flight, with what the random
    source and the clock will give it when it is served. *)
Record Call := {
  user : Z;
  roll : nat;
  clock : Z
}.

(** Modelled from the spec: the server under request-per-call concurrency
    (section 5): the store, the requests not served yet and the replies
    given. *)
Record World := {
  store : Store;
  pending : list Call;
  replies : list (Call * Reply)
}.

(** Modelled from the spec: any pending request may be the next to reach
    the store; serving it is one [AwardSpin], indivisible. *)
Inductive step : World -> World -> Prop :=
| step_serve (s : Store) (before after : list Call) (c : Call)
    (rs : list (Call * Reply)) :
    step {| store := s; pending := before ++ c :: after; replies := rs |}
         {| store := fst (AwardSpin (user c) (roll c) (clock c) s);
            pending := before ++ after;
            replies := rs ++ [(c, snd (AwardSpin (user c) (roll c) (clock c) s))] |}.

(** Modelled from the spec: a schedule, any number of such steps. *)
Inductive steps : World -> World -> Prop :=
| steps_done (w : World) : steps w w
| steps_more (w1 w2 w3 : World) : step w1 w2 -> steps w2 w3 -> steps w1 w3.

(** The replies given to one user. *)
Definition replies_to (u : Z) (rs : list (Call * Reply)) : list Reply :=
  map snd (filter (fun cr => Z.eqb (user (fst cr)) u) rs).

Definition calls_of (u : Z) (cs : list Call) : list Call :=
  filter (fun c => Z.eqb (user c) u) cs.

(** What holds of a user [u] with no record at the start, of whom [n]
    requests were pending then: the rows of [u] are as many as the awards
    made to [u], at most one; every reply to [u] carries the amount of
    the row in the store; and each of the [n] requests is pending or
    answered. *)
Definition consistent (u : Z) (n : nat) (w : World) : Prop :=
  rows_of u (store w)
  = List.length (filter is_awarded (replies_to u (replies w))) /\
  (rows_of u (store w) <= 1)%nat /\
  (forall reply, In reply (replies_to u (replies w)) ->
     exists r, lookup u (store w) = Some r /\ amount_of reply = prize_amount r) /\
  (List.length (replies_to u (replies w))
   + List.length (calls_of u (pending w)))%nat = n.

End AwardService.

(** ** Vocabulary of the statements *)

(** Whether a frame at time [now] is a last one: the branch of [animate]
    that does not request another frame. *)
Definition finalFrame (a : Animation) (now : Z) : bool :=
  (startTime a + 4000 <=? now)%Z.

(** A POST that did not succeed: [fetch] or [response.json ()] threw, or the
    status is not ok. *)
Definition failedSpin (settled : Completion Response) : bool :=
  match settled with
  | Throws _ => true
  | Returns response =>
      match json response with
      | Throws _ => true
      | Returns _ => negb (ok response)
      end
  end.

(** The recognised reply of a user who has spun before, with the prize it
    carries. *)
Definition alreadySpunShape (settled : Completion Response) : option Z :=
  match settled with
  | Throws _ => None
  | Returns response =>
      match json response with
      | Throws _ => None
      | Returns data =>
          if negb (ok response) && isAlreadySpun (data_error data)
          then data_prize data else None
      end
  end.

Definition isRequestAnimationFrame (e : Effect) : bool :=
  match e with
  | RequestAnimationFrame _ => true
  | _ => false
  end.

Definition isSetTimeout (e : Effect) : bool :=
  match e with
  | SetTimeout _ _ => true
  | _ => false
  end.

Definition count (p : Effect -> bool) (log : list Effect) : nat :=
  List.length (filter p log).

(** The closure [animateSpin] hands to the first frame, for any argument
    and for a number. *)
Definition closureFor (now : Z) (prize : option Z) : Animation :=
  {| targetPrize := prize;
     rotationTarget := totalRotation (indexOfPrize prize);
     startTime := now |}.

Definition closureOf (now : Z) (amount : Z) : Animation :=
  {| targetPrize := Some amount;
     rotationTarget := totalRotation (indexOf PRIZES amount);
     startTime := now |}.

Definition haptic (h : Host) (e : Effect) : list Effect :=
  if HapticFeedback h then [e] else [].

(** The flag is up exactly while the reply of the POST is awaited or a
    frame of the animation is requested. *)
Definition guarded (s : App) : Prop :=
  (List.length (awaitingSpin s) + List.length (frameRequests s))%nat
  = if isSpinning s then 1%nat else 0%nat.

(** A page and a host to run the script on. *)
Definition samplePage : Dom :=
  {| canvasSpinning := false; canvasOpacity := None; canvasWheel := [];
     spinBtnDisabled := false; spinBtnDisplay := None;
     loadingHidden := true; resultHidden := true;
     resultPrizeText := ""%string; alreadySpunHidden := true;
     alreadySpunPrizeText := ""%string |}.

Definition sampleHost : Host :=
  {| userId := Some 42%Z; HapticFeedback := true;
     toLocaleString := JsNumber.toString |}.

(** ** The start of the page: the top of the script, [init] and
    [checkCanSpin] *)

(** The body of a reply of [GET /api/can-spin], as [checkCanSpin] reads it:
    whether [data.can_spin] is truthy, and [data.prize], [None] where it is
    [null] or missing. *)
Record CanSpinBody := {
  data_can_spin : bool;
  data_prior_prize : option Z
}.

(** [checkCanSpin] reads the body only; the status is carried here to say
    so. *)
Record CanSpinResponse := {
  can_spin_ok : bool;
  can_spin_json : Completion CanSpinBody
}.

(** The [catch] block of [checkCanSpin]; the function then returns
    [false]. *)
Definition checkCanSpinCatch : Script :=
  call ConsoleError ;;
  assign (with_dom (set_loadingHidden true)) ;;
  call (Alert NoConnection).

(** [checkCanSpin ()] up to its [await]: the telegram id of the request
    where it waits for the reply, [None] where it has returned [false]. *)
Definition checkCanSpin (h : Host) (s : App) : (App * list Effect) * option Z :=
  let shown := assign (with_dom (set_loadingHidden false)) in
  let refuse :=
    shown ;;
    call (Alert NoUserId) ;;
    assign (with_dom (set_loadingHidden true)) in
  match userId h with
  | None => (refuse s, None)
  | Some uid =>
      if Z.eqb uid 0 then (refuse s, None) else (shown s, Some uid)
  end.

(** [checkCanSpin ()] from its [await] on, with the boolean it returns.
    [formatPrize (data.prize)] throws on a prize that is [null] or missing,
    and the [catch] block takes over with the loading panel already
    hidden. *)
Definition checkCanSpinResume
  (h : Host) (settled : Completion CanSpinResponse) (s : App)
  : (App * list Effect) * bool :=
  match settled with
  | Throws _ => (checkCanSpinCatch s, false)
  | Returns response =>
      match can_spin_json response with
      | Throws _ => (checkCanSpinCatch s, false)
      | Returns data =>
          let hidden := assign (with_dom (set_loadingHidden true)) in
          if data_can_spin data then (hidden s, true)
          else
            match data_prior_prize data with
            | Some amount => ((hidden ;; showAlreadySpun h amount) s, false)
            | None => ((hidden ;; checkCanSpinCatch) s, false)
            end
      end
  end.

(** The script and what the page holds for it: the listeners [init] adds
    and the callbacks of the start. *)
Record Page := {
  script : App;
  initPending : bool;          (* init is a listener of DOMContentLoaded *)
  awaitingCanSpin : list Z;    (* checkCanSpin suspended at its await *)
  spinListener : bool;         (* spinBtn.addEventListener ('click', spin) *)
  resultListener : bool        (* the listener that hides the result panel *)
}.

Inductive PageEffect :=
| Expand                               (* tg.expand () *)
| Ready                                (* tg.ready () *)
| FetchCanSpin (telegram_id : Z)       (* GET /api/can-spin?telegram_id= *)
| OfScript (e : Effect).

Definition PageScript : Type := Page -> Page * list PageEffect.

Definition set_script (s : App) (p : Page) : Page :=
  {| script := s; initPending := initPending p;
     awaitingCanSpin := awaitingCanSpin p;
     spinListener := spinListener p; resultListener := resultListener p |}.

(** A function of the script run on the page. *)
Definition lift (f : Script) : PageScript :=
  fun p => (set_script (fst (f (script p))) p, map OfScript (snd (f (script p)))).

(** [init ()] from the value of [checkCanSpin ()] on. *)
Definition initResume (canSpin : bool) (p : Page) : Page :=
  {| script := script p; initPending := initPending p;
     awaitingCanSpin := awaitingCanSpin p;
     spinListener := spinListener p || canSpin;
     resultListener := true |}.

(** [init ()]: draws the wheel, then asks whether the user can spin. *)
Definition init (h : Host) : PageScript :=
  fun p =>
    let drawn := with_dom (set_canvasWheel (drawWheel 0)) (script p) in
    match checkCanSpin h drawn with
    | (r, None) =>
        (initResume false (set_script (fst r) p), map OfScript (snd r))
    | (r, Some uid) =>
        ({| script := fst r; initPending := initPending p;
            awaitingCanSpin := awaitingCanSpin p ++ [uid];
            spinListener := spinListener p;
            resultListener := resultListener p |},
         map OfScript (snd r) ++ [FetchCanSpin uid])
    end.

(** The script as loaded into the page [page], before its first
    statement. *)
Definition loaded (page : Dom) : Page :=
  {| script := {| currentAngle := 0; isSpinning := false; animationId := None;
               dom := page; awaitingSpin := []; frameRequests := [];
               timeouts := []; nextFrameId := 1 |};
     initPending := false; awaitingCanSpin := [];
     spinListener := false; resultListener := false |}.

(** The statements at the top of the script; [loading] is whether
    [document.readyState] is ['loading']. *)
Definition boot (h : Host) (loading : bool) (page : Dom)
  : Page * list PageEffect :=
  if loading then
    ({| script := script (loaded page); initPending := true;
        awaitingCanSpin := []; spinListener := false;
        resultListener := false |},
     [Expand; Ready])
  else
    (fst (init h (loaded page)), [Expand; Ready] ++ snd (init h (loaded page))).

Inductive PageEvent :=
| DOMContentLoaded
| CanSpinSettled (settled : Completion CanSpinResponse)
| SpinButtonClicked
| ResultPanelClicked
| SpinReplySettled (settled : Completion Response) (now : Z)
| AnimationFrame (now : Z)
| ReportTimerFired (sent : Completion unit).

(** What the page does on an event.  The listener of [DOMContentLoaded]
    is added without [once] and never removed: [init] runs at every
    dispatch of the event.  [spin] is one function, so adding it twice
    leaves one listener; the listener of the result panel only hides the
    panel, and several of them do what one does.  A click reaches [spin]
    when the listener is there and the button is not disabled: a disabled
    button dispatches no click. *)
Definition pageHandle (h : Host) (e : PageEvent) : PageScript :=
  fun p =>
    match e with
    | DOMContentLoaded =>
        if initPending p then init h p else (p, [])
    | CanSpinSettled settled =>
        match awaitingCanSpin p with
        | [] => (p, [])
        | _ :: rest =>
            let r := checkCanSpinResume h settled (script p) in
            (initResume (snd r)
               {| script := fst (fst r); initPending := initPending p;
                  awaitingCanSpin := rest;
                  spinListener := spinListener p;
                  resultListener := resultListener p |},
             map OfScript (snd (fst r)))
        end
    | SpinButtonClicked =>
        if spinListener p && negb (spinBtnDisabled (dom (script p)))
        then lift (handle h Click) p else (p, [])
    | ResultPanelClicked =>
        if resultListener p then lift (handle h ResultClicked) p else (p, [])
    | SpinReplySettled settled now => lift (handle h (SpinSettled settled now)) p
    | AnimationFrame now => lift (handle h (Frame now)) p
    | ReportTimerFired sent => lift (handle h (TimerFired sent)) p
    end.

Fixpoint pageRun (h : Host) (events : list PageEvent) (p : Page)
  : Page * list PageEffect :=
  match events with
  | [] => (p, [])
  | e :: rest =>
      (fst (pageRun h rest (fst (pageHandle h e p))),
       snd (pageHandle h e p) ++ snd (pageRun h rest (fst (pageHandle h e p))))
  end.

(** ** More vocabulary *)

(** A reply of the eligibility check that lets the user spin: it parsed
    and [data.can_spin] is truthy. *)
Definition eligible (settled : Completion CanSpinResponse) : bool :=
  match settled with
  | Throws _ => false
  | Returns response =>
      match can_spin_json response with
      | Throws _ => false
      | Returns data => data_can_spin data
      end
  end.

Definition eligibleEvent (e : PageEvent) : bool :=
  match e with
  | CanSpinSettled settled => eligible settled
  | _ => false
  end.

Definition isFetch (e : Effect) : bool :=
  match e with
  | Fetch _ => true
  | _ => false
  end.

Definition isSpinSettled (e : Event) : bool :=
  match e with
  | SpinSettled _ _ => true
  | _ => false
  end.

Definition isFetchCanSpin (e : PageEffect) : bool :=
  match e with
  | FetchCanSpin _ => true
  | _ => false
  end.

Definition isDOMContentLoaded (e : PageEvent) : bool :=
  match e with
  | DOMContentLoaded => true
  | _ => false
  end.

(** The drawing on the canvas is the wheel at [currentAngle]. *)
Definition painted (s : App) : Prop :=
  canvasWheel (dom s) = drawWheel (currentAngle s).

(** What the eligibility check does not touch: the flag, the pending
    callbacks of a spin and the state of the button. *)
Definition sameSpinState (s s' : App) : Prop :=
  isSpinning s' = isSpinning s /\
  awaitingSpin s' = awaitingSpin s /\
  frameRequests s' = frameRequests s /\
  timeouts s' = timeouts s /\
  spinBtnDisabled (dom s') = spinBtnDisabled (dom s).

(** While the flag is up the button is disabled. *)
Definition disabledWhileSpinning (s : App) : Prop :=
  isSpinning s = true -> spinBtnDisabled (dom s) = true.

(** The events of the start of the page: [DOMContentLoaded] where the
    script was loaded before it, then the reply of the eligibility check. *)
Definition startEvents (loading : bool)
  (settled : Completion CanSpinResponse) : list PageEvent :=
  (if loading then [DOMContentLoaded] else []) ++ [CanSpinSettled settled].

(** Whether the host gives a usable user id: [!userId] is false. *)
Definition hasUserId (h : Host) : bool :=
  match userId h with
  | Some uid => negb (Z.eqb uid 0)
  | None => false
  end.

(** * Facts *)

(** ** The remainder *)

Lemma trunc_nonneg (x : R) :
  0 <= x ->
  IZR (JsNumber.trunc x) <= x < IZR (JsNumber.trunc x) + 1.
Proof.
  intros Hx. unfold JsNumber.trunc.
  destruct (Rle_dec 0 x) as [_ | Hn]; [| contradiction].
  destruct (base_Int_part x) as [Hlo Hhi]. lra.
Qed.

Lemma trunc_neg (x : R) :
  x < 0 ->
  IZR (JsNumber.trunc x) - 1 < x <= IZR (JsNumber.trunc x).
Proof.
  intros Hx. unfold JsNumber.trunc.
  destruct (Rle_dec 0 x) as [Hp | _]; [lra |].
  destruct (base_Int_part (- x)) as [Hlo Hhi].
  rewrite opp_IZR. lra.
Qed.

Lemma rem_congruent (x m : R) :
  exists k : Z, JsNumber.rem x m = x - IZR k * m.
Proof. exists (JsNumber.trunc (x / m)). reflexivity. Qed.

Lemma rem_of_nonneg (x m : R) :
  0 < m -> 0 <= x -> 0 <= JsNumber.rem x m < m.
Proof.
  intros Hm Hx. unfold JsNumber.rem.
  assert (Hq : 0 <= x / m).
  { apply Rmult_le_pos; [lra | apply Rlt_le, Rinv_0_lt_compat; lra]. }
  destruct (trunc_nonneg _ Hq) as [Hlo Hhi].
  assert (Hxm : x = x / m * m) by (field; lra).
  set (k := IZR (JsNumber.trunc (x / m))) in *.
  split; nra.
Qed.

Lemma rem_of_neg (x m : R) :
  0 < m -> x < 0 -> - m < JsNumber.rem x m <= 0.
Proof.
  intros Hm Hx. unfold JsNumber.rem.
  assert (Hq : x / m < 0).
  { unfold Rdiv. assert (0 < / m) by (apply Rinv_0_lt_compat; lra). nra. }
  destruct (trunc_neg _ Hq) as [Hlo Hhi].
  assert (Hxm : x = x / m * m) by (field; lra).
  set (k := IZR (JsNumber.trunc (x / m))) in *.
  split; nra.
Qed.

Lemma rem_range (x m : R) : 0 < m -> - m < JsNumber.rem x m < m.
Proof.
  intros Hm. destruct (Rle_lt_dec 0 x) as [Hx | Hx].
  - pose proof (rem_of_nonneg x m Hm Hx). lra.
  - pose proof (rem_of_neg x m Hm Hx). lra.
Qed.

(** The idiom [((x % m) + m) % m]. *)
Lemma normalize_range (x m : R) :
  0 < m -> 0 <= JsNumber.rem (JsNumber.rem x m + m) m < m.
Proof.
  intros Hm. apply rem_of_nonneg; [assumption |].
  pose proof (rem_range x m Hm). lra.
Qed.

Lemma normalize_congruent (x m : R) :
  exists k : Z, JsNumber.rem (JsNumber.rem x m + m) m = x + IZR k * m.
Proof.
  destruct (rem_congruent x m) as [k1 H1].
  destruct (rem_congruent (JsNumber.rem x m + m) m) as [k2 H2].
  exists (1 - k1 - k2)%Z. rewrite H2, H1.
  rewrite !minus_IZR. ring.
Qed.

(** Two numbers of [[0, m)] that differ by a multiple of [m] are equal. *)
Lemma residue_unique (a b m : R) (k : Z) :
  0 < m -> 0 <= a < m -> 0 <= b < m -> a = b + IZR k * m -> a = b.
Proof.
  intros Hm Ha Hb Hk.
  assert (Hlt : IZR (-1) < IZR k < IZR 1).
  { split; nra. }
  destruct Hlt as [H1 H2]. apply lt_IZR in H1. apply lt_IZR in H2.
  assert (k = 0%Z) by lia. subst k. lra.
Qed.

(** ** The table and the wheel *)

Lemma arc_value : arc = PI / 3.
Proof. unfold arc, PRIZES. simpl. field. Qed.

Lemma two_pi_pos : 0 < 2 * PI.
Proof. pose proof PI_RGT_0. lra. Qed.

Lemma indexOf_from_found (l : list Z) (x i : Z) :
  In x l ->
  (i <= indexOf_from l x i < i + Z.of_nat (List.length l))%Z /\
  nth_error l (Z.to_nat (indexOf_from l x i - i)) = Some x.
Proof.
  revert i. induction l as [| y rest IH]; intros i Hin; [destruct Hin |].
  simpl indexOf_from. destruct (Z.eqb_spec y x) as [-> | Hne].
  - split; [simpl List.length; lia |].
    replace (i - i)%Z with 0%Z by lia. reflexivity.
  - destruct Hin as [Heq | Hin]; [contradiction |].
    destruct (IH (i + 1)%Z Hin) as [Hr Hn].
    split; [simpl List.length; lia |].
    replace (indexOf_from rest x (i + 1) - i)%Z
      with (Z.succ (indexOf_from rest x (i + 1) - (i + 1)))%Z by lia.
    rewrite Z2Nat.inj_succ by lia. simpl. exact Hn.
Qed.

Lemma indexOf_from_absent (l : list Z) (x i : Z) :
  ~ In x l -> indexOf_from l x i = (-1)%Z.
Proof.
  revert i. induction l as [| y rest IH]; intros i Hnin; [reflexivity |].
  simpl. destruct (Z.eqb_spec y x) as [-> | Hne].
  - exfalso. apply Hnin. left. reflexivity.
  - apply IH. intros Hin. apply Hnin. right. exact Hin.
Qed.

Lemma indexOf_found (l : list Z) (x : Z) :
  In x l ->
  (0 <= indexOf l x < Z.of_nat (List.length l))%Z /\
  nth_error l (Z.to_nat (indexOf l x)) = Some x.
Proof.
  intros Hin. destruct (indexOf_from_found l x 0 Hin) as [Hr Hn].
  unfold indexOf. rewrite Z.sub_0_r in Hn. split; [lia | exact Hn].
Qed.

Lemma drawWheel_nth (rotation : R) (i : nat) :
  (i < List.length PRIZES)%nat ->
  nth_error (drawWheel rotation) i = Some (drawSegment rotation i).
Proof.
  intros Hi. unfold drawWheel.
  rewrite nth_error_map, nth_error_seq.
  apply Nat.ltb_lt in Hi. rewrite Hi. reflexivity.
Qed.



(** C4, as the script has it.  For every target index the residual angle
    of [animateSpin] lies in [[0, 2π)], in exact arithmetic for every
    integer index and, as the engine computes it in binary64, for the
    indices [-1 .. 5] that [indexOf] can answer on [PRIZES].  The rotation
    target is the sum the engine computes of five turns,
    [5 * 2 * Math.PI], and that residual.  The sum is rounded: the
    rotation target modulo [2 * Math.PI] is the residual up to rounding, for
    those indices within [2 ^ -40]. *)
Theorem residual_in_range_turns_added (targetIndex : Z) :
  0 <= normalizedTargetAngle targetIndex < 2 * PI /\
  Binary64.totalRotation targetIndex
  = Binary64.add
      (Binary64.mul (Binary64.mul (Binary64.number 5) (Binary64.number 2))
                    Binary64.PI)
      (Binary64.normalizedTargetAngle targetIndex) /\
  ((-1 <= targetIndex <= 5)%Z ->
   SFleb (S754_zero false) (Binary64.normalizedTargetAngle targetIndex) = true /\
   SFltb (Binary64.normalizedTargetAngle targetIndex) Binary64.twoPi = true /\
   Binary64.close
     (Binary64.rem (Binary64.totalRotation targetIndex) Binary64.twoPi)
     (Binary64.normalizedTargetAngle targetIndex) = true).
Proof.
  split; [apply normalize_range, two_pi_pos |].
  split; [reflexivity |].
  intros Hi.
  assert (Hcases : targetIndex = (-1)%Z \/ targetIndex = 0%Z \/
                   targetIndex = 1%Z \/ targetIndex = 2%Z \/
                   targetIndex = 3%Z \/ targetIndex = 4%Z \/
                   targetIndex = 5%Z) by lia.
  repeat (destruct Hcases as [-> | Hcases];
          [vm_compute; repeat split; reflexivity |]).
  subst targetIndex. vm_compute. repeat split; reflexivity.
Qed.

Lemma residual_in_range_turns_added_witness :
  (-1 <= 0 <= 5)%Z /\
  Binary64.close (Binary64.rem (Binary64.totalRotation 0) Binary64.twoPi)
                 (Binary64.normalizedTargetAngle 0) = true.
Proof.
  assert (H : (-1 <= 0 <= 5)%Z) by lia.
  split; [exact H |].
  exact (proj2 (proj2 (proj2 (proj2 (residual_in_range_turns_added 0)) H))).
Defined.

(** C4, as the claim has it, fails at the target index 0, the prize [5000]:
    the rotation target modulo [2 * Math.PI], as the engine computes it, is
    not the residual but a double above it. *)
Lemma turns_change_residue_in_binary64 :
  indexOf PRIZES 5000 = 0%Z /\
  Binary64.rem (Binary64.totalRotation 0) Binary64.twoPi
  <> Binary64.normalizedTargetAngle 0 /\
  SFltb (Binary64.normalizedTargetAngle 0)
        (Binary64.rem (Binary64.totalRotation 0) Binary64.twoPi) = true.
Proof.
  split; [reflexivity |].
  split; [vm_compute; discriminate | vm_compute; reflexivity].
Qed.

(** ** Frames *)

Lemma progress_final (a : Animation) (now : Z) :
  finalFrame a now = true -> progressAt a now = 1.
Proof.
  unfold finalFrame, progressAt, duration. intros H.
  apply Z.leb_le in H.
  assert (Hz : (4000 <= now - startTime a)%Z) by lia.
  apply IZR_le in Hz.
  unfold Rmin. destruct (Rle_dec _ 1) as [Hle | _]; lra.
Qed.

Lemma progress_running (a : Animation) (now : Z) :
  finalFrame a now = false -> progressAt a now < 1.
Proof.
  unfold finalFrame, progressAt, duration. intros H.
  apply Z.leb_gt in H.
  assert (Hz : (now - startTime a < 4000)%Z) by lia.
  apply IZR_lt in Hz.
  unfold Rmin. destruct (Rle_dec _ 1) as [_ | Hn]; lra.
Qed.

Lemma finalFrame_iff (a : Animation) (now : Z) :
  finalFrame a now = true <-> progressAt a now = 1.
Proof.
  split; [apply progress_final |].
  intros H. destruct (finalFrame a now) eqn:E; [reflexivity |].
  apply progress_running in E. lra.
Qed.

Lemma angle_final (a : Animation) (now : Z) :
  finalFrame a now = true -> angleAt a now = rotationTarget a.
Proof.
  intros H. unfold angleAt, easeOutCubic.
  rewrite (progress_final _ _ H). ring.
Qed.

Ltac run_script :=
  unfold andThen, assign, call, when, skip, paint, requestAnimationFrame,
    setTimeout, fetchSpin, haptic in *;
  cbn [fst snd app currentAngle isSpinning animationId dom awaitingSpin
       frameRequests timeouts nextFrameId with_dom set_currentAngle
       set_isSpinning set_awaitingSpin set_frameRequests set_timeouts
       enqueue_frame canvasSpinning canvasOpacity canvasWheel
       spinBtnDisabled spinBtnDisplay loadingHidden resultHidden
       resultPrizeText alreadySpunHidden alreadySpunPrizeText
       set_canvasSpinning set_canvasOpacity set_canvasWheel
       set_spinBtnDisabled set_spinBtnDisplay set_loadingHidden
       set_resultHidden set_resultPrizeText set_alreadySpunHidden
       set_alreadySpunPrizeText] in *.

(** A frame that is not the last repaints and asks for the next one. *)
Lemma animate_running (h : Host) (a : Animation) (now : Z) (s : App) :
  finalFrame a now = false ->
  animate h a now s
  = (enqueue_frame a
       (with_dom (set_canvasWheel (drawWheel (angleAt a now)))
          (set_currentAngle (angleAt a now) s)),
     [RequestAnimationFrame (nextFrameId s)]).
Proof.
  intros H. apply progress_running in H. unfold animate.
  destruct (Rlt_dec (progressAt a now) 1) as [_ | Hn]; [| contradiction].
  run_script. reflexivity.
Qed.

(** The last frame repaints at the rotation target, clears the flag and
    calls [showResult], all within the one callback. *)
Lemma animate_final
  (h : Host) (a : Animation) (now : Z) (s : App) (amount : Z) :
  targetPrize a = Some amount ->
  finalFrame a now = true ->
  animate h a now s
  = (fst (showResult h amount
            (set_isSpinning false
               (with_dom (set_canvasSpinning false)
                  (with_dom (set_canvasWheel (drawWheel (rotationTarget a)))
                     (set_currentAngle (rotationTarget a) s))))),
     SetTimeout 3000 amount :: haptic h NotificationOccurred).
Proof.
  intros Hp H. unfold animate.
  rewrite (angle_final _ _ H). rewrite (progress_final _ _ H). rewrite Hp.
  destruct (Rlt_dec 1 1) as [Hlt | _]; [lra |].
  unfold showResult. run_script.
  destruct (HapticFeedback h); reflexivity.
Qed.

(** The last frame of an animation toward [undefined]: the flag is cleared,
    then [showResult] throws; no panel, no timer, no feedback. *)
Lemma animate_final_undefined
  (h : Host) (a : Animation) (now : Z) (s : App) :
  targetPrize a = None ->
  finalFrame a now = true ->
  animate h a now s
  = (set_isSpinning false
       (with_dom (set_canvasSpinning false)
          (with_dom (set_canvasWheel (drawWheel (rotationTarget a)))
             (set_currentAngle (rotationTarget a) s))),
     []).
Proof.
  intros Hp H. unfold animate.
  rewrite (angle_final _ _ H). rewrite (progress_final _ _ H). rewrite Hp.
  destruct (Rlt_dec 1 1) as [Hlt | _]; [lra |].
  run_script. reflexivity.
Qed.

Lemma animateSpin_returns (now : Z) (prize : option Z) (s : App) :
  animateSpin now prize s
  = Returns (enqueue_frame (closureFor now prize)
               (with_dom (set_canvasSpinning true) s),
             [RequestAnimationFrame (nextFrameId s)]).
Proof. reflexivity. Qed.

(** The turn that brings segment [i] under the pointer. *)
Lemma totalRotation_lands (i : Z) :
  exists k : Z,
    totalRotation i + IZR i * arc + arc / 2 = - PI / 2 + IZR k * (2 * PI).
Proof.
  destruct (normalize_congruent (targetAngle i) (2 * PI)) as [k Hk].
  exists (5 + k)%Z. unfold totalRotation, normalizedTargetAngle, fullRotations.
  rewrite Hk. unfold targetAngle, pointerAngle, segmentCenterAngle,
    segmentStartAngle.
  rewrite plus_IZR. lra.
Qed.

Lemma totalRotation_pos (i : Z) : 0 < totalRotation i.
Proof.
  unfold totalRotation, fullRotations.
  pose proof (normalize_range (targetAngle i) (2 * PI) two_pi_pos) as Hn.
  fold (normalizedTargetAngle i) in Hn. pose proof PI_RGT_0. lra.
Qed.

(** ** The rotation target in binary64 *)

(** The remainder agrees with JavaScript on small cases. *)
Example binary64_rem_samples :
  Binary64.rem (Binary64.number (-7)) (Binary64.number 3) = Binary64.number (-1) /\
  Binary64.rem (Binary64.number 7) (Binary64.number (-3)) = Binary64.number 1 /\
  Binary64.rem (Binary64.div (Binary64.number 11) (Binary64.number 2))
               (Binary64.number 2)
  = Binary64.div (Binary64.number 3) (Binary64.number 2).
Proof. vm_compute. repeat split; reflexivity. Qed.

(** For every index that [indexOf] can answer on [PRIZES], the residual
    computed in binary64 is in [[0, 2 * Math.PI)]. *)
Lemma binary64_residual_in_range :
  forallb
    (fun i =>
       SFleb (S754_zero false) (Binary64.normalizedTargetAngle i)
       && SFltb (Binary64.normalizedTargetAngle i)
                (Binary64.mul (Binary64.number 2) Binary64.PI))
    [-1; 0; 1; 2; 3; 4; 5]%Z
  = true.
Proof. vm_compute. reflexivity. Qed.

(** For every prize of the table, the rotation target computed in binary64
    leaves the centre of its segment a whole number of turns from the
    pointer, six or seven, up to [2 ^ -40] of a turn. *)
Lemma binary64_lands_on_prize :
  forallb
    (fun p =>
       let i := indexOf PRIZES p in
       Binary64.near (Binary64.turnsPastPointer i) 6
       || Binary64.near (Binary64.turnsPastPointer i) 7)
    PRIZES
  = true.
Proof. vm_compute. reflexivity. Qed.

(** C1, as the script has it.  For every prize [p] of [PRIZES], the last
    frame of [animateSpin (p)] leaves in [currentAngle] the rotation target
    of [p]'s own index, whatever state, and so whatever rotation, the
    script was in before, and paints the wheel with the label [p] on that
    segment.  The rotation target puts the centre of that segment under the
    pointer at twelve o'clock up to rounding: as the engine computes it in
    binary64, [R + targetIndex * arc + arc / 2] is a whole number of turns,
    six or seven, from [-Math.PI / 2], within [2 ^ -40] of a turn. *)
Theorem spin_lands_within_tolerance (h : Host) (p now t : Z) (s0 s : App) :
  In p PRIZES ->
  (now + 4000 <= t)%Z ->
  let targetIndex := indexOf PRIZES p in
  let a := closureOf now p in
  let final := fst (animate h a t s) in
  animateSpin now (Some p) s0
  = Returns (enqueue_frame a (with_dom (set_canvasSpinning true) s0),
             [RequestAnimationFrame (nextFrameId s0)]) /\
  nth_error PRIZES (Z.to_nat targetIndex) = Some p /\
  currentAngle final = totalRotation targetIndex /\
  (exists seg : Segment,
      nth_error (canvasWheel (dom final)) (Z.to_nat targetIndex) = Some seg /\
      seg = drawSegment (currentAngle final) (Z.to_nat targetIndex) /\
      prizeLabel seg = Some p) /\
  (forall s' : App, currentAngle (fst (animate h a t s')) = currentAngle final) /\
  Binary64.near (Binary64.turnsPastPointer targetIndex) 6
  || Binary64.near (Binary64.turnsPastPointer targetIndex) 7 = true.
Proof.
  intros Hin Ht targetIndex a final.
  assert (Hfinal : finalFrame a t = true).
  { unfold finalFrame. simpl. apply Z.leb_le. exact Ht. }
  destruct (indexOf_found PRIZES p Hin) as [Hrange Hnth].
  fold targetIndex in Hrange, Hnth.
  assert (Hangle : forall s', currentAngle (fst (animate h a t s'))
                              = totalRotation targetIndex).
  { intros s'. rewrite (animate_final h a t s' p eq_refl Hfinal).
    unfold showResult. run_script. reflexivity. }
  subst final.
  split; [reflexivity |].
  split; [exact Hnth |].
  split; [apply Hangle |].
  split.
  { exists (drawSegment (totalRotation targetIndex) (Z.to_nat targetIndex)).
    split; [| split].
    - rewrite (animate_final h a t s p eq_refl Hfinal).
      unfold showResult. run_script. simpl rotationTarget.
      apply drawWheel_nth. simpl List.length in *. lia.
    - rewrite Hangle. reflexivity.
    - exact Hnth. }
  split; [intros s'; rewrite !Hangle; reflexivity |].
  subst targetIndex. clear - Hin. simpl in Hin.
  repeat (destruct Hin as [<- | Hin]; [vm_compute; reflexivity |]).
  destruct Hin.
Qed.

Lemma spin_lands_within_tolerance_witness :
  In 15000%Z PRIZES /\ (0 + 4000 <= 4016)%Z /\
  nth_error PRIZES (Z.to_nat (indexOf PRIZES 15000)) = Some 15000%Z /\
  currentAngle
    (fst (animate sampleHost (closureOf 0 15000) 4016 (initial samplePage)))
  = totalRotation (indexOf PRIZES 15000).
Proof.
  assert (Hin : In 15000%Z PRIZES) by (simpl; tauto).
  assert (Ht : (0 + 4000 <= 4016)%Z) by lia.
  pose proof (spin_lands_within_tolerance sampleHost 15000 0 4016
                (initial samplePage) (initial samplePage) Hin Ht) as H.
  split; [exact Hin |]. split; [exact Ht |].
  split; [exact (proj1 (proj2 H)) | exact (proj1 (proj2 (proj2 H)))].
Defined.

(** C1, as the claim has it, fails at the prize [5000], target index 0: as
    the engine computes it, the angle of the segment's centre at the
    rotation target is not [-Math.PI / 2] plus a whole number of turns.
    It lies strictly between the pointer six turns on and seven turns on,
    and its distance from the pointer modulo [2 * Math.PI] is a double
    above zero. *)
Lemma exact_landing_fails_in_binary64 :
  In 5000%Z PRIZES /\
  indexOf PRIZES 5000 = 0%Z /\
  SFltb (Binary64.pointerAfterTurns 6) (Binary64.centreAngle 0) = true /\
  SFltb (Binary64.centreAngle 0) (Binary64.pointerAfterTurns 7) = true /\
  SFltb (S754_zero false)
        (Binary64.rem (Binary64.sub (Binary64.centreAngle 0)
                                    Binary64.pointerAngle)
                      Binary64.twoPi) = true.
Proof.
  split; [simpl; tauto |].
  split; [reflexivity |].
  repeat split; vm_compute; reflexivity.
Qed.

(** ** Easing *)

Lemma cube_monotone (x y : R) : x <= y -> x ^ 3 <= y ^ 3.
Proof.
  intros H.
  assert (Hd : y ^ 3 - x ^ 3 = (y - x) * (y * y + x * y + x * x)) by ring.
  assert (Hq : 0 <= y * y + x * y + x * x) by nra.
  assert (0 <= (y - x) * (y * y + x * y + x * x)).
  { apply Rmult_le_pos; lra. }
  lra.
Qed.

Lemma easeOutCubic_monotone (p q : R) :
  p <= q -> easeOutCubic p <= easeOutCubic q.
Proof.
  intros H. unfold easeOutCubic.
  assert (Hc : (1 - q) ^ 3 <= (1 - p) ^ 3) by (apply cube_monotone; lra).
  lra.
Qed.

Lemma progressAt_monotone (a : Animation) (t1 t2 : Z) :
  (t1 <= t2)%Z -> progressAt a t1 <= progressAt a t2.
Proof.
  intros H. unfold progressAt, duration.
  assert (Hz : (t1 - startTime a <= t2 - startTime a)%Z) by lia.
  apply IZR_le in Hz.
  apply Rle_min_compat_r. lra.
Qed.

(** What a frame leaves in [currentAngle]. *)
Lemma animate_currentAngle (h : Host) (a : Animation) (now : Z) (s : App) :
  currentAngle (fst (animate h a now s)) = angleAt a now.
Proof.
  destruct (finalFrame a now) eqn:E.
  - destruct (targetPrize a) as [amount |] eqn:Hp.
    + rewrite (animate_final h a now s amount Hp E). unfold showResult.
      run_script. symmetry. apply angle_final. exact E.
    + rewrite (animate_final_undefined h a now s Hp E). run_script.
      symmetry. apply angle_final. exact E.
  - rewrite (animate_running h a now s E). reflexivity.
Qed.

(** C5.  Progress is a function of the wall clock alone: of two frames of
    one run of [animateSpin], the one at the later clock reading leaves the
    larger or equal [currentAngle], however many frames were or were not
    run in between; and a frame at [elapsed >= duration] leaves exactly
    the rotation target. *)
Theorem rotation_follows_wall_clock
  (h : Host) (amount now t1 t2 : Z) (s1 s2 : App) :
  (t1 <= t2)%Z ->
  let a := closureOf now amount in
  currentAngle (fst (animate h a t1 s1))
  <= currentAngle (fst (animate h a t2 s2)) /\
  (duration <= IZR (t2 - startTime a) ->
   progressAt a t2 = 1 /\
   currentAngle (fst (animate h a t2 s2))
   = totalRotation (indexOf PRIZES amount)).
Proof.
  intros Ht a. rewrite !animate_currentAngle. split.
  - unfold angleAt.
    apply Rmult_le_compat_r.
    + simpl. apply Rlt_le, totalRotation_pos.
    + apply easeOutCubic_monotone, progressAt_monotone. exact Ht.
  - intros Hd. unfold duration in Hd.
    assert (Hf : finalFrame a t2 = true).
    { unfold finalFrame. apply Z.leb_le.
      assert (Hz : (4000 <= t2 - startTime a)%Z) by (apply le_IZR; exact Hd).
      lia. }
    split; [apply progress_final; exact Hf |].
    rewrite (angle_final _ _ Hf). reflexivity.
Qed.

Lemma rotation_follows_wall_clock_witness :
  (1000 <= 9000)%Z /\
  currentAngle
    (fst (animate sampleHost (closureOf 0 5000) 1000 (initial samplePage)))
  <= currentAngle
       (fst (animate sampleHost (closureOf 0 5000) 9000 (initial samplePage))).
Proof.
  assert (Ht : (1000 <= 9000)%Z) by lia.
  split; [exact Ht |].
  exact (proj1 (rotation_follows_wall_clock sampleHost 5000 0 1000 9000
                  (initial samplePage) (initial samplePage) Ht)).
Defined.

(** ** Target indices that name the same segment *)

Lemma totalRotation_periodic (i j k : Z) :
  i = (j + k * Z.of_nat (List.length PRIZES))%Z ->
  totalRotation i = totalRotation j.
Proof.
  intros Hi. unfold totalRotation. f_equal.
  pose proof two_pi_pos as Hm.
  destruct (normalize_congruent (targetAngle i) (2 * PI)) as [ki Hki].
  destruct (normalize_congruent (targetAngle j) (2 * PI)) as [kj Hkj].
  fold (normalizedTargetAngle i) in Hki. fold (normalizedTargetAngle j) in Hkj.
  apply (residue_unique _ _ (2 * PI) (ki - kj - k)%Z Hm).
  - apply normalize_range; exact Hm.
  - apply normalize_range; exact Hm.
  - rewrite Hki, Hkj. unfold targetAngle, segmentCenterAngle, segmentStartAngle.
    rewrite arc_value. subst i. simpl List.length.
    rewrite !minus_IZR, plus_IZR, mult_IZR. simpl Z.of_nat. lra.
Qed.

(** C3, as the script has it.  [animateSpin] has no failure for an unknown
    prize: for every value, in the table or not, it returns normally with
    the first frame requested; for a value of [PRIZES] the target index is
    its position; for any other value [indexOf] answers [-1] and the
    animation runs to the rotation computed from that index, the one that
    brings the last segment under the pointer. *)
Theorem animateSpin_never_fails (now amount : Z) (s : App) :
  (exists r : App * list Effect,
      animateSpin now (Some amount) s = Returns r /\
      snd r = [RequestAnimationFrame (nextFrameId s)] /\
      frameRequests (fst r)
      = frameRequests s ++ [(nextFrameId s, closureOf now amount)]) /\
  (forall e : Exception, animateSpin now (Some amount) s <> Throws e) /\
  (In amount PRIZES ->
   nth_error PRIZES (Z.to_nat (indexOf PRIZES amount)) = Some amount) /\
  (~ In amount PRIZES ->
   indexOf PRIZES amount = (-1)%Z /\
   rotationTarget (closureOf now amount)
   = totalRotation (Z.of_nat (List.length PRIZES) - 1)).
Proof.
  split.
  { eexists. split; [apply animateSpin_returns |]. split; reflexivity. }
  split; [intros e; rewrite animateSpin_returns; discriminate |].
  split; [intros Hin; apply (indexOf_found PRIZES amount Hin) |].
  intros Hnin.
  assert (Hi : indexOf PRIZES amount = (-1)%Z)
    by (apply indexOf_from_absent; exact Hnin).
  split; [exact Hi |].
  unfold closureOf. cbn [rotationTarget]. rewrite Hi.
  apply (totalRotation_periodic _ _ (-1)%Z). simpl. reflexivity.
Qed.

Lemma animateSpin_never_fails_witness :
  ~ In 12345%Z PRIZES /\
  indexOf PRIZES 12345 = (-1)%Z /\
  rotationTarget (closureOf 0 12345)
  = totalRotation (Z.of_nat (List.length PRIZES) - 1).
Proof.
  assert (Hnin : ~ In 12345%Z PRIZES).
  { simpl. intros H. repeat (destruct H as [H | H]; [discriminate H |]).
    exact H. }
  split; [exact Hnin |].
  exact (proj2 (proj2 (proj2 (animateSpin_never_fails 0 12345
                                (initial samplePage)))) Hnin).
Defined.

(** C3, as the claim has it, fails at the amount 12345: it is not in the
    table, yet [animateSpin] does not throw; it requests the first frame of
    an animation toward the rotation of the prize 30000, and the last frame
    of that animation calls [showResult (12345)]. *)
Lemma unknown_prize_is_animated :
  ~ In 12345%Z PRIZES /\
  animateSpin 0 (Some 12345%Z) (initial samplePage)
  <> Throws (Error "UnknownPrize") /\
  (exists r : App * list Effect,
      animateSpin 0 (Some 12345%Z) (initial samplePage) = Returns r /\
      snd r = [RequestAnimationFrame 1] /\
      frameRequests (fst r) = [(1%nat, closureOf 0 12345)]) /\
  rotationTarget (closureOf 0 12345) = rotationTarget (closureOf 0 30000) /\
  snd (animate sampleHost (closureOf 0 12345) 4000 (initial samplePage))
  = [SetTimeout 3000 12345; NotificationOccurred].
Proof.
  split.
  { simpl. intros H. repeat (destruct H as [H | H]; [discriminate H |]).
    exact H. }
  split; [rewrite animateSpin_returns; discriminate |].
  split.
  { eexists. split; [apply animateSpin_returns |]. split; reflexivity. }
  split.
  { unfold closureOf. cbn [rotationTarget].
    apply (totalRotation_periodic _ _ (-1)%Z). reflexivity. }
  rewrite (animate_final sampleHost (closureOf 0 12345) 4000
             (initial samplePage) 12345 eq_refl eq_refl).
  reflexivity.
Qed.

(** ** Runs of the event loop *)

Lemma run_app (h : Host) (es1 es2 : list Event) (s : App) :
  run h (es1 ++ es2) s
  = (fst (run h es2 (fst (run h es1 s))),
     snd (run h es1 s) ++ snd (run h es2 (fst (run h es1 s)))).
Proof.
  revert s. induction es1 as [| e es1 IH]; intros s.
  - simpl. destruct (run h es2 s). reflexivity.
  - simpl. unfold andThen. rewrite IH. simpl. rewrite app_assoc. reflexivity.
Qed.

Lemma count_app (p : Effect -> bool) (l1 l2 : list Effect) :
  count p (l1 ++ l2) = (count p l1 + count p l2)%nat.
Proof. unfold count. rewrite filter_app, length_app. reflexivity. Qed.

Lemma count_requests (p : Effect -> bool) (ids : list nat) :
  (forall id, p (RequestAnimationFrame id) = false) ->
  count p (map RequestAnimationFrame ids) = 0%nat.
Proof.
  intros Hp. unfold count. induction ids as [| id ids IH]; [reflexivity |].
  simpl. rewrite Hp. exact IH.
Qed.

Lemma count_all_requests (ids : list nat) :
  count isRequestAnimationFrame (map RequestAnimationFrame ids)
  = List.length ids.
Proof.
  unfold count. induction ids as [| id ids IH]; [reflexivity |].
  simpl. rewrite IH. reflexivity.
Qed.

Lemma split_at_first (f : Z -> bool) (ts : list Z) :
  (forall t, In t ts -> f t = false) \/
  exists before t after,
    ts = before ++ t :: after /\
    (forall t', In t' before -> f t' = false) /\ f t = true.
Proof.
  induction ts as [| t ts IH]; [left; intros t [] |].
  destruct (f t) eqn:E.
  - right. exists [], t, ts. split; [reflexivity |].
    split; [intros t' [] | exact E].
  - destruct IH as [Hall | (before & t0 & after & Heq & Hb & Ht)].
    + left. intros t' [<- | Hin]; [exact E | apply Hall; exact Hin].
    + right. exists (t :: before), t0, after. split; [rewrite Heq; reflexivity |].
      split; [| exact Ht].
      intros t' [<- | Hin]; [exact E | apply Hb; exact Hin].
Qed.

(** With no callback requested a frame changes nothing. *)
Lemma frames_idle (h : Host) (ts : list Z) (s : App) :
  frameRequests s = [] -> run h (map Frame ts) s = (s, []).
Proof.
  intros Hs. induction ts as [| t ts IH]; [reflexivity |].
  simpl. unfold andThen.
  assert (Hh : handle h (Frame t) s = (s, [])).
  { unfold handle. rewrite Hs. simpl. run_script.
    destruct s; simpl in *; subst; reflexivity. }
  rewrite Hh. simpl. rewrite IH. reflexivity.
Qed.

Lemma frame_running (h : Host) (t : Z) (s : App) (id : nat) (a : Animation) :
  frameRequests s = [(id, a)] ->
  finalFrame a t = false ->
  handle h (Frame t) s
  = (enqueue_frame a
       (with_dom (set_canvasWheel (drawWheel (angleAt a t)))
          (set_currentAngle (angleAt a t) (set_frameRequests [] s))),
     [RequestAnimationFrame (nextFrameId s)]).
Proof.
  intros Hs Hf. unfold handle. rewrite Hs. cbn [runCallbacks].
  unfold andThen, assign, skip. cbn [fst snd].
  rewrite !(animate_running h a t _ Hf). reflexivity.
Qed.

Lemma frame_final
  (h : Host) (t : Z) (s : App) (id : nat) (a : Animation) (amount : Z) :
  frameRequests s = [(id, a)] ->
  targetPrize a = Some amount ->
  finalFrame a t = true ->
  snd (handle h (Frame t) s)
  = SetTimeout 3000 amount :: haptic h NotificationOccurred /\
  frameRequests (fst (handle h (Frame t) s)) = [] /\
  awaitingSpin (fst (handle h (Frame t) s)) = awaitingSpin s /\
  isSpinning (fst (handle h (Frame t) s)) = false /\
  timeouts (fst (handle h (Frame t) s)) = timeouts s ++ [amount] /\
  resultPrizeText (dom (fst (handle h (Frame t) s)))
  = formatPrize h amount.
Proof.
  intros Hs Hp Hf. unfold handle. rewrite Hs. cbn [runCallbacks].
  unfold andThen, assign, skip. cbn [fst snd].
  rewrite !(animate_final h a t _ amount Hp Hf). unfold showResult. run_script.
  rewrite app_nil_r. repeat split; reflexivity.
Qed.

(** The last frame, whatever its prize: the request is consumed, the flag
    is cleared and the wheel rests at the rotation target. *)
Lemma frame_final_state
  (h : Host) (t : Z) (s : App) (id : nat) (a : Animation) :
  frameRequests s = [(id, a)] ->
  finalFrame a t = true ->
  frameRequests (fst (handle h (Frame t) s)) = [] /\
  awaitingSpin (fst (handle h (Frame t) s)) = awaitingSpin s /\
  isSpinning (fst (handle h (Frame t) s)) = false /\
  currentAngle (fst (handle h (Frame t) s)) = rotationTarget a /\
  canvasWheel (dom (fst (handle h (Frame t) s)))
  = drawWheel (rotationTarget a).
Proof.
  intros Hs Hf. unfold handle. rewrite Hs. cbn [runCallbacks].
  unfold andThen, assign, skip. cbn [fst snd].
  destruct (targetPrize a) as [amount |] eqn:Hp.
  - rewrite !(animate_final h a t _ amount Hp Hf). unfold showResult.
    run_script. repeat split; reflexivity.
  - rewrite !(animate_final_undefined h a t _ Hp Hf).
    run_script. repeat split; reflexivity.
Qed.

(** Frames before the last one: each repaints and requests the next. *)
Lemma frames_running (h : Host) (a : Animation) (ts : list Z) :
  forall (s : App) (id : nat),
    frameRequests s = [(id, a)] ->
    (forall t, In t ts -> finalFrame a t = false) ->
    snd (run h (map Frame ts) s)
    = map RequestAnimationFrame (seq (nextFrameId s) (List.length ts)) /\
    (exists id', frameRequests (fst (run h (map Frame ts) s)) = [(id', a)]) /\
    awaitingSpin (fst (run h (map Frame ts) s)) = awaitingSpin s /\
    isSpinning (fst (run h (map Frame ts) s)) = isSpinning s /\
    timeouts (fst (run h (map Frame ts) s)) = timeouts s.
Proof.
  induction ts as [| t ts IH]; intros s id Hs Hall.
  - simpl. repeat split; try reflexivity. exists id. exact Hs.
  - assert (Ht : finalFrame a t = false) by (apply Hall; left; reflexivity).
    simpl run. unfold andThen. cbn [fst snd].
    rewrite (frame_running h t s id a Hs Ht). cbn [fst snd].
    set (s1 := enqueue_frame a _).
    assert (Hs1 : frameRequests s1 = [(nextFrameId s, a)]) by reflexivity.
    destruct (IH s1 (nextFrameId s) Hs1) as (Hlog & Hreq & Haw & Hsp & Hto).
    { intros t' Hin. apply Hall. right. exact Hin. }
    split; [rewrite Hlog; reflexivity |].
    split; [exact Hreq |].
    split; [rewrite Haw; reflexivity |].
    split; [rewrite Hsp; reflexivity | rewrite Hto; reflexivity].
Qed.

(** A run of frames through its last one: the frames after it find no
    callback. *)
Lemma frames_complete
  (h : Host) (a : Animation) (before after : list Z) (t : Z)
  (s : App) (id : nat) (amount : Z) :
  frameRequests s = [(id, a)] ->
  targetPrize a = Some amount ->
  (forall t', In t' before -> finalFrame a t' = false) ->
  finalFrame a t = true ->
  let r := run h (map Frame (before ++ t :: after)) s in
  snd r
  = map RequestAnimationFrame (seq (nextFrameId s) (List.length before))
    ++ SetTimeout 3000 amount :: haptic h NotificationOccurred /\
  frameRequests (fst r) = [] /\
  awaitingSpin (fst r) = awaitingSpin s /\
  isSpinning (fst r) = false /\
  timeouts (fst r) = timeouts s ++ [amount] /\
  resultPrizeText (dom (fst r)) = formatPrize h amount.
Proof.
  intros Hs Hp Hb Ht r. subst r.
  rewrite map_app, run_app. cbn [fst snd map].
  destruct (frames_running h a before s id Hs Hb)
    as (Hlog & (id' & Hreq) & Haw & Hsp & Hto).
  set (s1 := fst (run h (map Frame before) s)) in *.
  change (run h (Frame t :: map Frame after) s1)
    with ((handle h (Frame t) ;; run h (map Frame after)) s1).
  unfold andThen. cbn [fst snd].
  destruct (frame_final h t s1 id' a amount Hreq Hp Ht)
    as (Hlog2 & Hreq2 & Haw2 & Hsp2 & Hto2 & Htxt2).
  rewrite (frames_idle h after _ Hreq2). cbn [fst snd].
  rewrite Hlog, Hlog2, app_nil_r, Hto2, Hto, Haw2, Haw.
  repeat split; assumption.
Qed.

Lemma running_of_progress (a : Animation) (t : Z) :
  progressAt a t < 1 -> finalFrame a t = false.
Proof.
  intros H. destruct (finalFrame a t) eqn:E; [| reflexivity].
  apply progress_final in E. lra.
Qed.

(** C6.  In a run of the spin animation [showResult], seen in the log by
    the timer it arms, is called once, with the target prize: in the first
    frame whose progress reaches 1, inside that frame's callback; the
    frames before it only request the next frame, and after it no frame is
    requested and later frames find nothing to run.  As long as no frame
    has reached progress 1 it has not been called. *)
Theorem showResult_called_once
  (h : Host) (amount now : Z) (s : App) (ts : list Z) :
  frameRequests s = [] ->
  let a := closureOf now amount in
  let started := enqueue_frame a (with_dom (set_canvasSpinning true) s) in
  let r := run h (map Frame ts) started in
  animateSpin now (Some amount) s
  = Returns (started, [RequestAnimationFrame (nextFrameId s)]) /\
  (count isSetTimeout (snd r) <= 1)%nat /\
  (forall (before : list Z) (t : Z) (after : list Z),
      ts = before ++ t :: after ->
      (forall t', In t' before -> progressAt a t' < 1) ->
      progressAt a t = 1 ->
      snd r
      = map RequestAnimationFrame
          (seq (nextFrameId started) (List.length before))
        ++ SetTimeout 3000 amount :: haptic h NotificationOccurred /\
      count isSetTimeout (snd r) = 1%nat /\
      count isRequestAnimationFrame (snd r) = List.length before /\
      frameRequests (fst r) = [] /\
      isSpinning (fst r) = false /\
      timeouts (fst r) = timeouts s ++ [amount]) /\
  ((forall t', In t' ts -> progressAt a t' < 1) ->
   count isSetTimeout (snd r) = 0%nat /\
   exists id, frameRequests (fst r) = [(id, a)]).
Proof.
  intros Hs a started r.
  assert (Hreq : frameRequests started = [(nextFrameId s, a)]).
  { unfold started. cbn. rewrite Hs. reflexivity. }
  assert (Hdone : forall before t after,
             ts = before ++ t :: after ->
             (forall t', In t' before -> finalFrame a t' = false) ->
             finalFrame a t = true ->
             snd r
             = map RequestAnimationFrame
                 (seq (nextFrameId started) (List.length before))
               ++ SetTimeout 3000 amount :: haptic h NotificationOccurred /\
             count isSetTimeout (snd r) = 1%nat /\
             count isRequestAnimationFrame (snd r) = List.length before /\
             frameRequests (fst r) = [] /\
             isSpinning (fst r) = false /\
             timeouts (fst r) = timeouts s ++ [amount]).
  { intros before t after Heq Hb Ht. subst r. rewrite Heq.
    destruct (frames_complete h a before after t started _ amount
                Hreq eq_refl Hb Ht)
      as (Hlog & Hfr & _ & Hsp & Hto & _).
    rewrite Hlog. split; [reflexivity |].
    split.
    { rewrite count_app, count_requests by reflexivity.
      unfold haptic. destruct (HapticFeedback h); reflexivity. }
    split.
    { rewrite count_app, count_all_requests, length_seq.
      unfold haptic, count. destruct (HapticFeedback h); simpl; lia. }
    split; [exact Hfr |]. split; [exact Hsp | exact Hto]. }
  assert (Hnot : (forall t', In t' ts -> finalFrame a t' = false) ->
                 count isSetTimeout (snd r) = 0%nat /\
                 exists id, frameRequests (fst r) = [(id, a)]).
  { intros Hall. subst r.
    destruct (frames_running h a ts started _ Hreq Hall)
      as (Hlog & Hfr & _).
    rewrite Hlog. split; [apply count_requests; reflexivity | exact Hfr]. }
  split; [apply animateSpin_returns |].
  split.
  { destruct (split_at_first (finalFrame a) ts)
      as [Hall | (before & t & after & Heq & Hb & Ht)].
    - destruct (Hnot Hall) as [H0 _]. rewrite H0. lia.
    - destruct (Hdone before t after Heq Hb Ht) as (_ & H1 & _).
      rewrite H1. lia. }
  split.
  { intros before t after Heq Hb Ht. apply (Hdone before t after Heq).
    - intros t' Hin. apply running_of_progress, Hb, Hin.
    - apply finalFrame_iff. exact Ht. }
  intros Hall. apply Hnot. intros t' Hin.
  apply running_of_progress, Hall, Hin.
Qed.

Lemma showResult_called_once_witness :
  frameRequests (initial samplePage) = [] /\
  (count isSetTimeout
     (snd (run sampleHost (map Frame [1000; 4000; 5000]%Z)
             (enqueue_frame (closureOf 0 5000)
                (with_dom (set_canvasSpinning true) (initial samplePage)))))
   <= 1)%nat.
Proof.
  split; [reflexivity |].
  exact (proj1 (proj2 (showResult_called_once sampleHost 5000 0
                         (initial samplePage) [1000; 4000; 5000]%Z eq_refl))).
Defined.

(** ** The guard of [spin] *)

Lemma spin_while_spinning (h : Host) (s : App) :
  isSpinning s = true -> spin h s = (s, []).
Proof. intros H. unfold spin. rewrite H. reflexivity. Qed.

Lemma spin_guarded (h : Host) (s : App) :
  guarded s -> guarded (fst (spin h s)).
Proof.
  unfold guarded, spin. intros Hg.
  destruct (isSpinning s) eqn:E; [cbn; rewrite E; exact Hg |].
  destruct (userId h) as [uid |]; [| cbn; rewrite E; exact Hg].
  destruct (Z.eqb uid 0); [cbn; rewrite E; exact Hg |].
  destruct (HapticFeedback h); run_script;
    rewrite length_app; simpl; lia.
Qed.

Lemma spinCatch_fields (s : App) :
  isSpinning (fst (spinCatch s)) = false /\
  spinBtnDisabled (dom (fst (spinCatch s))) = false /\
  loadingHidden (dom (fst (spinCatch s))) = true /\
  awaitingSpin (fst (spinCatch s)) = awaitingSpin s /\
  frameRequests (fst (spinCatch s)) = frameRequests s /\
  snd (spinCatch s) = [ConsoleError; Alert NoConnection].
Proof. unfold spinCatch. run_script. repeat split; reflexivity. Qed.

Lemma spinResume_guarded
  (h : Host) (settled : Completion Response) (now : Z) (s : App) :
  isSpinning s = true ->
  awaitingSpin s = [] ->
  frameRequests s = [] ->
  guarded (fst (spinResume h settled now s)).
Proof.
  intros Hsp Haw Hfr. unfold guarded, spinResume.
  destruct settled as [response | e].
  2: { destruct (spinCatch_fields s) as (H1 & _ & _ & H2 & H3 & _).
       rewrite H1, H2, H3, Haw, Hfr. reflexivity. }
  destruct (json response) as [data | e].
  2: { destruct (spinCatch_fields s) as (H1 & _ & _ & H2 & H3 & _).
       rewrite H1, H2, H3, Haw, Hfr. reflexivity. }
  destruct (ok response).
  - unfold andThen, assign. cbn [fst snd]. rewrite animateSpin_returns.
    cbn. rewrite Hsp, Haw, Hfr. reflexivity.
  - destruct (isAlreadySpun (data_error data));
      [destruct (data_prize data) |];
      unfold showAlreadySpun, spinCatch; run_script; rewrite Haw, Hfr;
      reflexivity.
Qed.

Lemma handle_guarded (h : Host) (e : Event) (s : App) :
  guarded s -> guarded (fst (handle h e s)).
Proof.
  intros Hg. destruct e as [| settled now | now | sent |].
  - apply spin_guarded. exact Hg.
  - unfold handle. destruct (awaitingSpin s) as [| u rest] eqn:Haw;
      [exact Hg |].
    unfold andThen, assign. cbn [fst snd].
    unfold guarded in Hg. rewrite Haw in Hg. simpl in Hg.
    destruct (isSpinning s) eqn:Hsp; [| lia].
    apply spinResume_guarded.
    + exact Hsp.
    + cbn. destruct rest; [reflexivity | simpl in Hg; lia].
    + cbn. destruct (frameRequests s); [reflexivity |].
      simpl in Hg. lia.
  - unfold guarded in Hg.
    destruct (frameRequests s) as [| [id a] rest] eqn:Hfr.
    + assert (Hh : handle h (Frame now) s = (s, [])).
      { unfold handle. rewrite Hfr. simpl. run_script.
        destruct s; simpl in *; subst; reflexivity. }
      rewrite Hh. unfold guarded. cbn [fst]. rewrite Hfr. exact Hg.
    + assert (rest = []) by
        (destruct rest; [reflexivity |];
         simpl in Hg; destruct (isSpinning s); lia).
      subst rest. simpl in Hg.
      assert (Haw : awaitingSpin s = []).
      { destruct (awaitingSpin s); [reflexivity |].
        simpl in Hg. destruct (isSpinning s); lia. }
      assert (Hsp : isSpinning s = true).
      { destruct (isSpinning s); [reflexivity | lia]. }
      destruct (finalFrame a now) eqn:Hf.
      * destruct (frame_final_state h now s id a Hfr Hf)
          as (H1 & H2 & H3 & _).
        unfold guarded. rewrite H1, H2, H3, Haw. reflexivity.
      * rewrite (frame_running h now s id a Hfr Hf).
        unfold guarded. cbn. rewrite Haw, Hsp. reflexivity.
  - unfold handle. destruct (timeouts s) as [| amount rest]; [exact Hg |].
    unfold sendResult. destruct sent; run_script; exact Hg.
  - unfold handle. run_script. exact Hg.
Qed.

Lemma run_guarded (h : Host) (events : list Event) (s : App) :
  guarded s -> guarded (fst (run h events s)).
Proof.
  revert s. induction events as [| e events IH]; intros s Hg; [exact Hg |].
  simpl. unfold andThen. cbn [fst]. apply IH, handle_guarded, Hg.
Qed.

(** C7.  At most one award call is in flight per client: in every state the
    script can reach, at most one POST is awaited; [isSpinning] is set
    exactly while that POST is awaited or a frame of the animation is
    requested; and while it is set a further [spin ()], such as a click on
    the button, returns at once: no call into the host, hence no second POST
    and no second animation, and the state is the one before. *)
Theorem one_award_call_in_flight
  (h : Host) (page : Dom) (events : list Event) :
  let s := fst (run h events (initial page)) in
  (List.length (awaitingSpin s) <= 1)%nat /\
  (List.length (awaitingSpin s) + List.length (frameRequests s) <= 1)%nat /\
  (isSpinning s = true <->
   (List.length (awaitingSpin s) + List.length (frameRequests s))%nat = 1%nat) /\
  (isSpinning s = true ->
   spin h s = (s, []) /\ handle h Click s = (s, []) /\
   forall clicks : nat, run h (repeat Click clicks) s = (s, [])).
Proof.
  intros s.
  assert (Hg : guarded s).
  { apply run_guarded. reflexivity. }
  unfold guarded in Hg.
  split; [destruct (isSpinning s); lia |].
  split; [destruct (isSpinning s); lia |].
  split.
  { destruct (isSpinning s); split; intros H; try reflexivity;
      try discriminate; lia. }
  intros Hsp.
  split; [apply spin_while_spinning; exact Hsp |].
  split; [apply spin_while_spinning; exact Hsp |].
  intros clicks. induction clicks as [| n IH]; [reflexivity |].
  simpl. unfold andThen.
  rewrite (spin_while_spinning h s Hsp : handle h Click s = (s, [])).
  cbn [fst snd]. rewrite IH. reflexivity.
Qed.

Lemma one_award_call_in_flight_witness :
  isSpinning (fst (run sampleHost [Click] (initial samplePage))) = true /\
  spin sampleHost (fst (run sampleHost [Click] (initial samplePage)))
  = (fst (run sampleHost [Click] (initial samplePage)), []).
Proof.
  assert (Hsp : isSpinning (fst (run sampleHost [Click] (initial samplePage)))
                = true) by reflexivity.
  split; [exact Hsp |].
  exact (proj1 (proj2 (proj2 (proj2 (one_award_call_in_flight sampleHost
                                       samplePage [Click]))) Hsp)).
Defined.

(** ** The reply of the POST *)

(** What a failed POST leaves behind. *)
Lemma spinResume_failed
  (h : Host) (settled : Completion Response) (now : Z) (s : App) :
  failedSpin settled = true ->
  frameRequests (fst (spinResume h settled now s)) = frameRequests s /\
  count isRequestAnimationFrame (snd (spinResume h settled now s)) = 0%nat /\
  canvasSpinning (dom (fst (spinResume h settled now s)))
  = canvasSpinning (dom s) /\
  currentAngle (fst (spinResume h settled now s)) = currentAngle s /\
  isSpinning (fst (spinResume h settled now s)) = false /\
  spinBtnDisabled (dom (fst (spinResume h settled now s))) = false /\
  loadingHidden (dom (fst (spinResume h settled now s))) = true /\
  match alreadySpunShape settled with
  | Some amount =>
      alreadySpunPrizeText (dom (fst (spinResume h settled now s)))
      = formatPrize h amount /\
      alreadySpunHidden (dom (fst (spinResume h settled now s))) = false /\
      spinBtnDisplay (dom (fst (spinResume h settled now s)))
      = Some "none"%string /\
      snd (spinResume h settled now s) = []
  | None =>
      alreadySpunPrizeText (dom (fst (spinResume h settled now s)))
      = alreadySpunPrizeText (dom s) /\
      alreadySpunHidden (dom (fst (spinResume h settled now s)))
      = alreadySpunHidden (dom s) /\
      spinBtnDisplay (dom (fst (spinResume h settled now s)))
      = spinBtnDisplay (dom s) /\
      exists m : Message, In (Alert m) (snd (spinResume h settled now s))
  end.
Proof.
  intros Hfail. unfold failedSpin in Hfail.
  unfold spinResume, alreadySpunShape.
  destruct settled as [response | e].
  2: { unfold spinCatch. run_script. repeat split; try reflexivity.
       exists NoConnection. right. left. reflexivity. }
  destruct (json response) as [data | e].
  2: { unfold spinCatch. run_script. repeat split; try reflexivity.
       exists NoConnection. right. left. reflexivity. }
  destruct (ok response); [discriminate Hfail |].
  cbn [negb andb].
  destruct (isAlreadySpun (data_error data)).
  - destruct (data_prize data) as [amount |].
    + unfold showAlreadySpun. run_script. repeat split; reflexivity.
    + unfold spinCatch. run_script. repeat split; try reflexivity.
      exists NoConnection. right. left. reflexivity.
  - run_script. repeat split; try reflexivity.
    exists (alertText (data_error data)). left. reflexivity.
Qed.

(** A reply with the error [Already spun] and no prize: [formatPrize]
    throws and the [catch] block answers. *)
Lemma spinResume_already_spun_without_prize
  (h : Host) (response : Response) (data : SpinBody) (now : Z) (s : App) :
  failedSpin (Returns response) = true ->
  json response = Returns data ->
  isAlreadySpun (data_error data) = true ->
  data_prize data = None ->
  alreadySpunShape (Returns response) = None /\
  snd (spinResume h (Returns response) now s)
  = [ConsoleError; Alert NoConnection].
Proof.
  intros Hfail Hj Hspun Hprize. unfold failedSpin in Hfail.
  unfold alreadySpunShape, spinResume. rewrite Hj in *.
  destruct (ok response); [discriminate Hfail |].
  cbn [negb andb]. rewrite Hspun, Hprize.
  split; [reflexivity |]. unfold spinCatch. run_script. reflexivity.
Qed.

(** C9.  When the POST has failed, by a status that is not ok or by an
    exception of [fetch] or of [response.json ()], [spin] starts no
    animation and puts back the state it had before the call: [isSpinning]
    is false and the button is enabled.  When the reply has the shape of
    a user who has spun before, the error [Already spun] with the prize
    recorded, that prize is displayed, as [toLocaleString] writes it and
    followed by the rouble sign, and the button is hidden (and no alert is
    raised); for every other failure an alert is raised and the button
    stays as it is displayed.  Among these is the reply with the error
    [Already spun] and no prize: [formatPrize] throws on it and the [catch]
    block raises the alert of a lost connection. *)
Theorem failed_spin_restores_state
  (h : Host) (settled : Completion Response) (now : Z) (s : App) :
  failedSpin settled = true ->
  let r := spinResume h settled now s in
  frameRequests (fst r) = frameRequests s /\
  count isRequestAnimationFrame (snd r) = 0%nat /\
  canvasSpinning (dom (fst r)) = canvasSpinning (dom s) /\
  currentAngle (fst r) = currentAngle s /\
  isSpinning (fst r) = false /\
  spinBtnDisabled (dom (fst r)) = false /\
  loadingHidden (dom (fst r)) = true /\
  match alreadySpunShape settled with
  | Some amount =>
      alreadySpunPrizeText (dom (fst r))
      = (toLocaleString h amount ++ " ₽")%string /\
      formatPrize h amount = (toLocaleString h amount ++ " ₽")%string /\
      alreadySpunHidden (dom (fst r)) = false /\
      spinBtnDisplay (dom (fst r)) = Some "none"%string /\
      snd r = []
  | None =>
      alreadySpunPrizeText (dom (fst r)) = alreadySpunPrizeText (dom s) /\
      alreadySpunHidden (dom (fst r)) = alreadySpunHidden (dom s) /\
      spinBtnDisplay (dom (fst r)) = spinBtnDisplay (dom s) /\
      exists m : Message, In (Alert m) (snd r)
  end /\
  (forall (response : Response) (data : SpinBody),
      settled = Returns response ->
      json response = Returns data ->
      isAlreadySpun (data_error data) = true ->
      data_prize data = None ->
      alreadySpunShape settled = None /\
      snd r = [ConsoleError; Alert NoConnection]).
Proof.
  intros Hfail r. subst r.
  destruct (spinResume_failed h settled now s Hfail)
    as (H1 & H2 & H3 & H4 & H5 & H6 & H7 & H8).
  do 7 (split; [assumption |]).
  split.
  - destruct (alreadySpunShape settled) as [amount |]; [| exact H8].
    destruct H8 as (Ht & Hh & Hd & Hl).
    split; [exact Ht |]. split; [reflexivity |].
    split; [exact Hh |]. split; [exact Hd | exact Hl].
  - intros response data -> Hj Hspun Hprize.
    exact (spinResume_already_spun_without_prize h response data now s
             Hfail Hj Hspun Hprize).
Qed.

Lemma failed_spin_restores_state_witness :
  failedSpin
    (Returns {| ok := false;
                json := Returns {| data_error := Some "Already spun"%string;
                                   data_prize := Some 15000%Z |} |}) = true /\
  isSpinning (fst (spin sampleHost (initial samplePage))) = true /\
  isSpinning
    (fst (spinResume sampleHost
            (Returns {| ok := false;
                        json := Returns {| data_error := Some "Already spun"%string;
                                           data_prize := Some 15000%Z |} |})
            0 (fst (spin sampleHost (initial samplePage))))) = false /\
  spinBtnDisabled
    (dom (fst (spinResume sampleHost
                 (Returns {| ok := false;
                             json := Returns {| data_error := Some "Already spun"%string;
                                                data_prize := Some 15000%Z |} |})
                 0 (fst (spin sampleHost (initial samplePage)))))) = false /\
  list_ascii_of_string
    (alreadySpunPrizeText
       (dom (fst (spinResume sampleHost
                    (Returns {| ok := false;
                                json := Returns {| data_error := Some "Already spun"%string;
                                                   data_prize := Some 15000%Z |} |})
                    0 (fst (spin sampleHost (initial samplePage)))))))
  = map ascii_of_nat [49; 53; 48; 48; 48; 32; 226; 130; 189]%nat.
Proof.
  pose proof (failed_spin_restores_state sampleHost
                (Returns {| ok := false;
                            json := Returns {| data_error := Some "Already spun"%string;
                                               data_prize := Some 15000%Z |} |})
                0 (fst (spin sampleHost (initial samplePage))) eq_refl) as H.
  split; [reflexivity |]. split; [reflexivity |].
  split; [exact (proj1 (proj2 (proj2 (proj2 (proj2 H))))) |].
  split; [exact (proj1 (proj2 (proj2 (proj2 (proj2 (proj2 H)))))) |].
  cbv zeta in H.
  destruct H as (_ & _ & _ & _ & _ & _ & _ & (Htext & _) & _).
  rewrite Htext. reflexivity.
Defined.

(** ** From the reply to the bot *)

Lemma click_sends (h : Host) (page : Dom) (uid : Z) :
  userId h = Some uid ->
  uid <> 0%Z ->
  snd (handle h Click (initial page)) = haptic h ImpactOccurred ++ [Fetch uid] /\
  awaitingSpin (fst (handle h Click (initial page))) = [uid] /\
  frameRequests (fst (handle h Click (initial page))) = [] /\
  timeouts (fst (handle h Click (initial page))) = [] /\
  nextFrameId (fst (handle h Click (initial page))) = 1%nat.
Proof.
  intros Hu Hn. unfold handle, spin. cbn [isSpinning initial].
  rewrite Hu. apply Z.eqb_neq in Hn. rewrite Hn.
  destruct (HapticFeedback h) eqn:E; run_script; rewrite E;
    repeat split; reflexivity.
Qed.

Lemma reply_starts_animation
  (h : Host) (s : App) (uid amount now : Z) (e : option string) :
  awaitingSpin s = [uid] ->
  let reply :=
    Returns {| ok := true;
               json := Returns {| data_error := e;
                                  data_prize := Some amount |} |} in
  snd (handle h (SpinSettled reply now) s)
  = [RequestAnimationFrame (nextFrameId s)] /\
  frameRequests (fst (handle h (SpinSettled reply now) s))
  = frameRequests s ++ [(nextFrameId s, closureOf now amount)] /\
  timeouts (fst (handle h (SpinSettled reply now) s)) = timeouts s /\
  nextFrameId (fst (handle h (SpinSettled reply now) s)) = S (nextFrameId s).
Proof.
  intros Haw reply. unfold handle. rewrite Haw. subst reply.
  unfold spinResume. cbn [json ok data_prize].
  unfold andThen, assign. cbn [fst snd]. rewrite animateSpin_returns.
  cbn. repeat split; reflexivity.
Qed.


(** When [tg.sendData] throws, the [catch] block hides the result panel and
    the view is not closed. *)
Lemma timer_report_refused (h : Host) (s : App) (amount : Z) (e : Exception) :
  timeouts s = [amount] ->
  snd (handle h (TimerFired (Throws e)) s)
  = [SendData (stringifyPrize amount); ConsoleError] /\
  resultHidden (dom (fst (handle h (TimerFired (Throws e)) s))) = true.
Proof.
  intros Ht. unfold handle. rewrite Ht. unfold sendResult. run_script.
  split; reflexivity.
Qed.

Example stringifyPrize_15000 :
  list_ascii_of_string (stringifyPrize 15000)
  = map ascii_of_nat
      [123; 34; 112; 114; 105; 122; 101; 34; 58; 49; 53; 48; 48; 48; 125]%nat.
Proof. reflexivity. Qed.










(** ** Schedules of the award service *)

Module AwardFacts.

Import AwardService.

Lemma lookup_app (u : Z) (s : Store) (r : SpinRecord) :
  lookup u (s ++ [r])
  = match lookup u s with
    | Some x => Some x
    | None => if Z.eqb (user_id r) u then Some r else None
    end.
Proof.
  unfold lookup. induction s as [| x s IH]; simpl.
  - destruct (Z.eqb (user_id r) u); reflexivity.
  - destruct (Z.eqb (user_id x) u); [reflexivity | exact IH].
Qed.

Lemma rows_of_app (u : Z) (s : Store) (r : SpinRecord) :
  rows_of u (s ++ [r])
  = (rows_of u s + if Z.eqb (user_id r) u then 1 else 0)%nat.
Proof.
  unfold rows_of. rewrite filter_app, length_app. simpl.
  destruct (Z.eqb (user_id r) u); reflexivity.
Qed.

Lemma lookup_none_rows (u : Z) (s : Store) :
  lookup u s = None <-> rows_of u s = 0%nat.
Proof.
  unfold lookup, rows_of. induction s as [| x s IH]; simpl.
  - tauto.
  - destruct (Z.eqb (user_id x) u); simpl; [| exact IH].
    split; intros H; discriminate H.
Qed.

Lemma replies_to_app (u : Z) (rs : list (Call * Reply)) (c : Call) (r : Reply) :
  replies_to u (rs ++ [(c, r)])
  = replies_to u rs ++ (if Z.eqb (user c) u then [r] else []).
Proof.
  unfold replies_to. rewrite filter_app, map_app. simpl.
  destruct (Z.eqb (user c) u); reflexivity.
Qed.

Lemma calls_of_remove (u : Z) (before after : list Call) (c : Call) :
  List.length (calls_of u (before ++ c :: after))
  = (List.length (calls_of u (before ++ after))
     + if Z.eqb (user c) u then 1 else 0)%nat.
Proof.
  unfold calls_of. rewrite !filter_app, !length_app. simpl.
  destruct (Z.eqb (user c) u); simpl; lia.
Qed.

(** Serving a request of another user leaves what [u] sees as it is. *)
Lemma award_other (u v : Z) (roll : nat) (now : Z) (s : Store) :
  v <> u ->
  lookup u (fst (AwardSpin v roll now s)) = lookup u s /\
  rows_of u (fst (AwardSpin v roll now s)) = rows_of u s.
Proof.
  intros Hne. unfold AwardSpin. apply Z.eqb_neq in Hne.
  destruct (lookup v s); simpl; [split; reflexivity |].
  rewrite lookup_app, rows_of_app. simpl. rewrite Hne.
  split; [destruct (lookup u s); reflexivity | lia].
Qed.

Lemma step_consistent (u : Z) (n : nat) (w w' : World) :
  consistent u n w -> step w w' -> consistent u n w'.
Proof.
  intros (Hrows & Hle & Hrep & Hn) Hstep.
  destruct Hstep as [s before after c rs].
  unfold consistent in *. cbn [store pending replies] in *.
  rewrite replies_to_app. rewrite calls_of_remove in Hn.
  destruct (Z.eqb_spec (user c) u) as [Hu | Hu].
  - rewrite Hu. unfold AwardSpin.
    destruct (lookup u s) as [r |] eqn:Hl; cbn [fst snd].
    + rewrite filter_app, !length_app. simpl.
      split; [lia |]. split; [exact Hle |].
      split; [| lia].
      intros reply Hin. apply in_app_or in Hin.
      destruct Hin as [Hin | [<- | []]].
      * destruct (Hrep reply Hin) as (r0 & Hr0 & Ha).
        exists r0. split; [rewrite Hl; exact Hr0 | exact Ha].
      * exists r. split; [exact Hl | reflexivity].
    + assert (H0 : rows_of u s = 0%nat) by (apply lookup_none_rows; exact Hl).
      rewrite rows_of_app, lookup_app, Hl. simpl. rewrite Z.eqb_refl.
      rewrite filter_app, !length_app. simpl.
      split; [lia |]. split; [lia |].
      split; [| lia].
      intros reply Hin. apply in_app_or in Hin.
      destruct Hin as [Hin | [<- | []]].
      * destruct (Hrep reply Hin) as (r & Hr & _). discriminate Hr.
      * eexists. split; reflexivity.
  - destruct (award_other u (user c) (roll c) (clock c) s Hu) as [Hl Hr].
    rewrite Hl, Hr, app_nil_r. simpl in Hn. rewrite Nat.add_0_r in Hn.
    repeat split; assumption.
Qed.

Lemma steps_consistent (u : Z) (n : nat) (w w' : World) :
  steps w w' -> consistent u n w -> consistent u n w'.
Proof.
  intros Hsteps. induction Hsteps as [w | w1 w2 w3 Hstep _ IH]; intros Hc.
  - exact Hc.
  - apply IH. apply (step_consistent u n w1 w2 Hc Hstep).
Qed.

(** C2.  [AwardSpin] under concurrent calls: when requests race, some of
    them for a user [u] who has no record yet, then in whatever order
    they reach the store, once all are served [u] has exactly one record,
    exactly one of [u]'s calls was answered as the award and the others
    as already spun, and every one of them carries the amount of that
    record. *)
Theorem award_spin_atomic
  (u : Z) (store0 : Store) (calls : list Call) (w : World) :
  rows_of u store0 = 0%nat ->
  calls_of u calls <> [] ->
  steps {| store := store0; pending := calls; replies := [] |} w ->
  pending w = [] ->
  rows_of u (store w) = 1%nat /\
  List.length (replies_to u (replies w)) = List.length (calls_of u calls) /\
  List.length (filter is_awarded (replies_to u (replies w))) = 1%nat /\
  exists r : SpinRecord,
    lookup u (store w) = Some r /\
    forall reply, In reply (replies_to u (replies w)) ->
                  amount_of reply = prize_amount r.
Proof.
  intros Hfresh Hcalls Hsteps Hdone.
  assert (Hc : consistent u (List.length (calls_of u calls))
                 {| store := store0; pending := calls; replies := [] |}).
  { unfold consistent. cbn [store pending replies]. rewrite Hfresh.
    split; [reflexivity |]. split; [lia |].
    split; [intros reply [] | reflexivity]. }
  apply (steps_consistent u _ _ w Hsteps) in Hc.
  destruct Hc as (Hrows & Hle & Hrep & Hn).
  rewrite Hdone in Hn. cbn in Hn. rewrite Nat.add_0_r in Hn.
  assert (Hsome : exists reply, In reply (replies_to u (replies w))).
  { destruct (replies_to u (replies w)) as [| reply l].
    - destruct (calls_of u calls); [contradiction | discriminate Hn].
    - exists reply. left. reflexivity. }
  destruct Hsome as (reply0 & Hin0).
  destruct (Hrep reply0 Hin0) as (r & Hr & _).
  assert (Hpos : rows_of u (store w) <> 0%nat).
  { intros H0. apply lookup_none_rows in H0. rewrite H0 in Hr. discriminate. }
  split; [lia |]. split; [exact Hn |]. split; [lia |].
  exists r. split; [exact Hr |].
  intros reply Hin. destruct (Hrep reply Hin) as (r' & Hr' & Ha).
  rewrite Hr in Hr'. injection Hr' as <-. exact Ha.
Qed.

(** Every request is served in the end: from any state of the server some
    schedule answers all that is pending. *)
Lemma all_served_reachable (w : World) :
  exists w', steps w w' /\ pending w' = [].
Proof.
  destruct w as [s cs rs]. revert s rs.
  induction cs as [| c cs IH]; intros s rs.
  - eexists. split; [apply steps_done | reflexivity].
  - destruct (IH (fst (AwardSpin (user c) (roll c) (clock c) s))
                (rs ++ [(c, snd (AwardSpin (user c) (roll c) (clock c) s))]))
      as (w' & Hsteps & Hdone).
    exists w'. split; [| exact Hdone].
    eapply steps_more; [| exact Hsteps].
    apply (step_serve s [] cs c rs).
Qed.

Lemma award_spin_atomic_witness :
  rows_of 42 [] = 0%nat /\
  rows_of 42
    [{| user_id := 42; prize_amount := 25000; spun_at := 101 |};
     {| user_id := 7; prize_amount := 5000; spun_at := 102 |}] = 1%nat /\
  List.length
    (filter is_awarded
       (replies_to 42
          [({| user := 42; roll := 4; clock := 101 |}, Awarded 25000);
           ({| user := 7; roll := 0; clock := 102 |}, Awarded 5000);
           ({| user := 42; roll := 2; clock := 100 |}, AlreadySpun 25000)]))
  = 1%nat.
Proof.
  assert (Hsteps :
    steps
      {| store := [];
         pending := [{| user := 42; roll := 2; clock := 100 |};
                     {| user := 42; roll := 4; clock := 101 |};
                     {| user := 7; roll := 0; clock := 102 |}];
         replies := [] |}
      {| store := [{| user_id := 42; prize_amount := 25000; spun_at := 101 |};
                   {| user_id := 7; prize_amount := 5000; spun_at := 102 |}];
         pending := [];
         replies :=
           [({| user := 42; roll := 4; clock := 101 |}, Awarded 25000);
            ({| user := 7; roll := 0; clock := 102 |}, Awarded 5000);
            ({| user := 42; roll := 2; clock := 100 |}, AlreadySpun 25000)] |}).
  { eapply steps_more.
    { apply (step_serve [] [{| user := 42; roll := 2; clock := 100 |}]
               [{| user := 7; roll := 0; clock := 102 |}]
               {| user := 42; roll := 4; clock := 101 |} []). }
    eapply steps_more.
    { apply (step_serve _ [{| user := 42; roll := 2; clock := 100 |}] []
               {| user := 7; roll := 0; clock := 102 |} _). }
    eapply steps_more.
    { apply (step_serve _ [] [] {| user := 42; roll := 2; clock := 100 |} _). }
    apply steps_done. }
  assert (Hfresh : rows_of 42 [] = 0%nat) by reflexivity.
  split; [exact Hfresh |].
  assert (Hcalls :
    calls_of 42 [{| user := 42; roll := 2; clock := 100 |};
                 {| user := 42; roll := 4; clock := 101 |};
                 {| user := 7; roll := 0; clock := 102 |}] <> []).
  { cbn. discriminate. }
  destruct (award_spin_atomic 42 [] _ _ Hfresh Hcalls Hsteps eq_refl)
    as (H1 & _ & H3 & _).
  split; [exact H1 | exact H3].
Defined.

End AwardFacts.

(** * Further properties of the script *)

(** ** The course of the animation *)

Lemma progress_within (a : Animation) (t : Z) :
  (startTime a <= t)%Z -> 0 <= progressAt a t <= 1.
Proof.
  intros Ht. unfold progressAt, duration.
  assert (Hz : (0 <= t - startTime a)%Z) by lia.
  apply IZR_le in Hz.
  unfold Rmin. destruct (Rle_dec _ 1) as [Hle | _]; lra.
Qed.

Lemma progress_linear (a : Animation) (t : Z) :
  (t <= startTime a + 4000)%Z ->
  progressAt a t = IZR (t - startTime a) / 4000.
Proof.
  intros Ht. unfold progressAt, duration.
  assert (Hz : (t - startTime a <= 4000)%Z) by lia.
  apply IZR_le in Hz.
  unfold Rmin. destruct (Rle_dec _ 1) as [_ | Hn]; [reflexivity | lra].
Qed.

Lemma easeOutCubic_within (p : R) :
  0 <= p <= 1 -> 0 <= easeOutCubic p <= 1.
Proof.
  intros [H0 H1]. unfold easeOutCubic.
  assert (Hlo : 0 ^ 3 <= (1 - p) ^ 3) by (apply cube_monotone; lra).
  assert (Hhi : (1 - p) ^ 3 <= 1 ^ 3) by (apply cube_monotone; lra).
  simpl in Hlo, Hhi. simpl. lra.
Qed.

Lemma cube_strictly_monotone (x y : R) : 0 <= x -> x < y -> x ^ 3 < y ^ 3.
Proof.
  intros H0 H.
  assert (Hd : y ^ 3 - x ^ 3 = (y - x) * (y * y + x * y + x * x)) by ring.
  assert (Hq : 0 < y * y + x * y + x * x) by nra.
  assert (0 < (y - x) * (y * y + x * y + x * x)).
  { apply Rmult_lt_0_compat; lra. }
  lra.
Qed.

(** X2.  From the start of the animation on, a frame leaves [currentAngle]
    between 0 and the rotation target, whatever the angle was before;
    a frame at the very start leaves 0, so every spin begins from the
    wheel's initial position. *)
Theorem animation_stays_within_target
  (h : Host) (amount now t : Z) (s : App) :
  (now <= t)%Z ->
  0 <= currentAngle (fst (animate h (closureOf now amount) t s))
    <= totalRotation (indexOf PRIZES amount) /\
  currentAngle (fst (animate h (closureOf now amount) now s)) = 0.
Proof.
  intros Ht. rewrite !animate_currentAngle. unfold angleAt.
  cbn [rotationTarget closureOf].
  pose proof (totalRotation_pos (indexOf PRIZES amount)) as Hpos.
  split.
  - assert (Hp : 0 <= progressAt (closureOf now amount) t <= 1)
      by (apply progress_within; exact Ht).
    apply easeOutCubic_within in Hp.
    set (e := easeOutCubic _) in *. split; nra.
  - rewrite progress_linear by (cbn; lia). cbn [startTime closureOf].
    rewrite Z.sub_diag. unfold easeOutCubic. simpl. lra.
Qed.

Lemma animation_stays_within_target_witness :
  (0 <= 1000)%Z /\
  0 <= currentAngle
         (fst (animate sampleHost (closureOf 0 5000) 1000 (initial samplePage)))
    <= totalRotation (indexOf PRIZES 5000).
Proof.
  assert (Ht : (0 <= 1000)%Z) by discriminate.
  split; [exact Ht |].
  exact (proj1 (animation_stays_within_target sampleHost 5000 0 1000
                  (initial samplePage) Ht)).
Defined.

(** X3.  A frame whose clock reading is earlier than the start of the
    animation, the wall clock having been set back, leaves a negative
    [currentAngle], the wheel turned backwards past its initial position,
    and asks for the next frame. *)
Theorem clock_set_back_turns_wheel_backwards
  (h : Host) (amount now t : Z) (s : App) :
  (t < now)%Z ->
  currentAngle (fst (animate h (closureOf now amount) t s)) < 0 /\
  snd (animate h (closureOf now amount) t s)
  = [RequestAnimationFrame (nextFrameId s)] /\
  isSpinning (fst (animate h (closureOf now amount) t s)) = isSpinning s.
Proof.
  intros Ht.
  assert (Hf : finalFrame (closureOf now amount) t = false).
  { unfold finalFrame. apply Z.leb_gt. cbn. lia. }
  rewrite (animate_running h _ t s Hf). cbn [fst snd].
  split; [| split; reflexivity].
  cbn [currentAngle enqueue_frame with_dom set_currentAngle].
  unfold angleAt. cbn [rotationTarget closureOf].
  rewrite progress_linear by (cbn; lia). cbn [startTime closureOf].
  assert (Hz : (t - now <= -1)%Z) by lia. apply IZR_le in Hz.
  pose proof (totalRotation_pos (indexOf PRIZES amount)) as Hpos.
  set (p := IZR (t - now) / 4000).
  assert (Hp : p < 0) by (unfold p; lra).
  unfold easeOutCubic.
  assert (Hc : 1 ^ 3 < (1 - p) ^ 3) by (apply cube_strictly_monotone; lra).
  simpl in Hc.
  assert (He : 1 - (1 - p) ^ 3 < 0) by (simpl; lra).
  nra.
Qed.

Lemma clock_set_back_turns_wheel_backwards_witness :
  (900 < 1000)%Z /\
  currentAngle
    (fst (animate sampleHost (closureOf 1000 5000) 900 (initial samplePage)))
  < 0.
Proof.
  assert (Ht : (900 < 1000)%Z) by reflexivity.
  split; [exact Ht |].
  exact (proj1 (clock_set_back_turns_wheel_backwards sampleHost 5000 1000 900
                  (initial samplePage) Ht)).
Defined.

(** X4.  Until the duration has passed the wheel moves at every tick of the
    clock: of two frames of one animation at clock readings
    [now <= t1 < t2 <= now + 4000] the later leaves a strictly larger
    [currentAngle]. *)
Theorem wheel_advances_until_the_end
  (h : Host) (amount now t1 t2 : Z) (s1 s2 : App) :
  (now <= t1)%Z -> (t1 < t2)%Z -> (t2 <= now + 4000)%Z ->
  currentAngle (fst (animate h (closureOf now amount) t1 s1))
  < currentAngle (fst (animate h (closureOf now amount) t2 s2)).
Proof.
  intros H1 H12 H2. rewrite !animate_currentAngle. unfold angleAt.
  cbn [rotationTarget closureOf].
  rewrite !progress_linear by (cbn; lia). cbn [startTime closureOf].
  pose proof (totalRotation_pos (indexOf PRIZES amount)) as Hpos.
  assert (Hz1 : (0 <= t1 - now)%Z) by lia. apply IZR_le in Hz1.
  assert (Hz12 : (t1 - now < t2 - now)%Z) by lia. apply IZR_lt in Hz12.
  assert (Hz2 : (t2 - now <= 4000)%Z) by lia. apply IZR_le in Hz2.
  set (p := IZR (t1 - now) / 4000). set (q := IZR (t2 - now) / 4000).
  assert (Hpq : p < q) by (unfold p, q; lra).
  assert (Hq : q <= 1) by (unfold q; lra).
  unfold easeOutCubic.
  assert (Hc : (1 - q) ^ 3 < (1 - p) ^ 3)
    by (apply cube_strictly_monotone; lra).
  apply Rmult_lt_compat_r; [exact Hpos | lra].
Qed.

Lemma wheel_advances_until_the_end_witness :
  (0 <= 16)%Z /\ (16 < 32)%Z /\ (32 <= 0 + 4000)%Z /\
  currentAngle
    (fst (animate sampleHost (closureOf 0 5000) 16 (initial samplePage)))
  < currentAngle
      (fst (animate sampleHost (closureOf 0 5000) 32 (initial samplePage))).
Proof.
  assert (H1 : (0 <= 16)%Z) by discriminate.
  assert (H2 : (16 < 32)%Z) by reflexivity.
  assert (H3 : (32 <= 0 + 4000)%Z) by discriminate.
  split; [exact H1 |]. split; [exact H2 |]. split; [exact H3 |].
  exact (wheel_advances_until_the_end sampleHost 5000 0 16 32
           (initial samplePage) (initial samplePage) H1 H2 H3).
Defined.

(** X5.  The easing decelerates: over two time steps of equal length
    within the duration, the wheel turns no more in the second than in the
    first. *)
Theorem animation_decelerates
  (h : Host) (amount now t d : Z) (s0 s1 s2 : App) :
  (now <= t)%Z -> (0 <= d)%Z -> (t + 2 * d <= now + 4000)%Z ->
  let a := closureOf now amount in
  currentAngle (fst (animate h a (t + 2 * d) s2))
  - currentAngle (fst (animate h a (t + d) s1))
  <= currentAngle (fst (animate h a (t + d) s1))
     - currentAngle (fst (animate h a t s0)).
Proof.
  intros Ht Hd Hend a. subst a. rewrite !animate_currentAngle. unfold angleAt.
  cbn [rotationTarget closureOf].
  rewrite !progress_linear by (cbn [startTime closureOf]; lia).
  cbn [startTime closureOf].
  pose proof (totalRotation_pos (indexOf PRIZES amount)) as Hpos.
  replace (t + 2 * d - now)%Z with ((t - now) + 2 * d)%Z by lia.
  replace (t + d - now)%Z with ((t - now) + d)%Z by lia.
  rewrite !plus_IZR, mult_IZR.
  assert (Hz0 : (0 <= t - now)%Z) by lia. apply IZR_le in Hz0.
  assert (Hzd : (0 <= d)%Z) by lia. apply IZR_le in Hzd.
  assert (Hze : ((t - now) + 2 * d <= 4000)%Z) by lia. apply IZR_le in Hze.
  rewrite plus_IZR, mult_IZR in Hze.
  set (x := IZR (t - now)) in *. set (y := IZR d) in *.
  set (T := totalRotation (indexOf PRIZES amount)) in *.
  unfold easeOutCubic.
  assert (Hdiff :
    (1 - (1 - (x + 2 * y) / 4000) ^ 3) * T - (1 - (1 - (x + y) / 4000) ^ 3) * T
    - ((1 - (1 - (x + y) / 4000) ^ 3) * T - (1 - (1 - x / 4000) ^ 3) * T)
    = - (6 * (y / 4000) * (y / 4000) * (1 - (x + y) / 4000)) * T) by field.
  assert (Hu : 0 <= 1 - (x + y) / 4000) by lra.
  assert (Hy : 0 <= y / 4000) by lra.
  assert (Hprod : 0 <= 6 * (y / 4000) * (y / 4000) * (1 - (x + y) / 4000)).
  { apply Rmult_le_pos; [| exact Hu].
    apply Rmult_le_pos; [| exact Hy]. lra. }
  assert (0 <= 6 * (y / 4000) * (y / 4000) * (1 - (x + y) / 4000) * T).
  { apply Rmult_le_pos; lra. }
  lra.
Qed.

Lemma animation_decelerates_witness :
  (0 <= 1000)%Z /\ (0 <= 500)%Z /\ (1000 + 2 * 500 <= 0 + 4000)%Z /\
  currentAngle
    (fst (animate sampleHost (closureOf 0 5000) (1000 + 2 * 500)
            (initial samplePage)))
  - currentAngle
      (fst (animate sampleHost (closureOf 0 5000) (1000 + 500)
              (initial samplePage)))
  <= currentAngle
       (fst (animate sampleHost (closureOf 0 5000) (1000 + 500)
               (initial samplePage)))
     - currentAngle
         (fst (animate sampleHost (closureOf 0 5000) 1000
                 (initial samplePage))).
Proof.
  assert (H1 : (0 <= 1000)%Z) by discriminate.
  assert (H2 : (0 <= 500)%Z) by discriminate.
  assert (H3 : (1000 + 2 * 500 <= 0 + 4000)%Z) by discriminate.
  split; [exact H1 |]. split; [exact H2 |]. split; [exact H3 |].
  exact (animation_decelerates sampleHost 5000 0 1000 500
           (initial samplePage) (initial samplePage) (initial samplePage)
           H1 H2 H3).
Defined.

(** ** Where the wheel comes to rest *)

(** X6.  Two different prizes of the table come to rest at rotations that
    differ by no whole number of turns: the wheel at rest shows which
    prize was drawn. *)
Theorem distinct_prizes_rest_apart (p q : Z) (k : Z) :
  In p PRIZES -> In q PRIZES -> p <> q ->
  totalRotation (indexOf PRIZES p)
  <> totalRotation (indexOf PRIZES q) + IZR k * (2 * PI).
Proof.
  intros Hp Hq Hne Heq.
  destruct (indexOf_found PRIZES p Hp) as [Hip Hnp].
  destruct (indexOf_found PRIZES q Hq) as [Hiq Hnq].
  set (i := indexOf PRIZES p) in *. set (j := indexOf PRIZES q) in *.
  assert (Hij : i <> j).
  { intros E. rewrite E in Hnp. rewrite Hnp in Hnq. injection Hnq as E'.
    contradiction. }
  simpl List.length in Hip, Hiq.
  destruct (totalRotation_lands i) as [ki Hki].
  destruct (totalRotation_lands j) as [kj Hkj].
  rewrite arc_value in Hki, Hkj.
  assert (Hz : IZR (j - i) * PI = IZR (6 * (k + kj - ki)) * PI).
  { rewrite minus_IZR, mult_IZR, minus_IZR, plus_IZR. lra. }
  apply Rmult_eq_reg_r in Hz; [| pose proof PI_RGT_0; lra].
  apply eq_IZR in Hz. lia.
Qed.

Lemma distinct_prizes_rest_apart_witness :
  In 5000%Z PRIZES /\ In 30000%Z PRIZES /\ 5000%Z <> 30000%Z /\
  totalRotation (indexOf PRIZES 5000)
  <> totalRotation (indexOf PRIZES 30000) + IZR 0 * (2 * PI).
Proof.
  assert (H1 : In 5000%Z PRIZES) by (simpl; tauto).
  assert (H2 : In 30000%Z PRIZES) by (simpl; tauto).
  assert (H3 : 5000%Z <> 30000%Z) by discriminate.
  split; [exact H1 |]. split; [exact H2 |]. split; [exact H3 |].
  exact (distinct_prizes_rest_apart 5000 30000 0 H1 H2 H3).
Defined.

(** ** The report to the bot *)

Lemma string_length_append (s t : string) :
  String.length (s ++ t) = (String.length s + String.length t)%nat.
Proof. induction s as [| c s IH]; simpl; [reflexivity | rewrite IH; reflexivity]. Qed.

Lemma string_append_cancel_r (s1 s2 t : string) :
  (s1 ++ t)%string = (s2 ++ t)%string -> s1 = s2.
Proof.
  revert s2. induction s1 as [| c s1 IH]; intros [| c2 s2] H; simpl in H.
  - reflexivity.
  - apply (f_equal String.length) in H. simpl in H.
    rewrite string_length_append in H. lia.
  - apply (f_equal String.length) in H. simpl in H.
    rewrite string_length_append in H. lia.
  - injection H as -> H. f_equal. apply IH. exact H.
Qed.

Lemma toString_injective (a b : Z) :
  JsNumber.toString a = JsNumber.toString b -> a = b.
Proof.
  unfold JsNumber.toString. intros H.
  assert (Hnn : forall z, Z.to_int z <> Decimal.Pos Decimal.Nil /\
                          Z.to_int z <> Decimal.Neg Decimal.Nil).
  { intros [| p | p]; simpl; split; try discriminate;
      intros E; injection E as E;
      exact (DecimalPos.Unsigned.to_uint_nonnil p E). }
  apply (f_equal NilZero.int_of_string) in H.
  rewrite !NilZero.isi in H by apply Hnn.
  injection H as H. apply DecimalZ.to_int_inj. exact H.
Qed.

(** X7.  The data handed to the bot tells the prize: different amounts give
    different strings. *)
Theorem payload_identifies_prize (a b : Z) :
  stringifyPrize a = stringifyPrize b -> a = b.
Proof.
  unfold stringifyPrize, quote. simpl. intros H.
  injection H as H.
  apply string_append_cancel_r in H.
  apply toString_injective. exact H.
Qed.

Lemma payload_identifies_prize_witness :
  stringifyPrize 5000 = stringifyPrize (2500 + 2500) /\
  5000%Z = (2500 + 2500)%Z.
Proof.
  assert (H : stringifyPrize 5000 = stringifyPrize (2500 + 2500))
    by reflexivity.
  split; [exact H |].
  exact (payload_identifies_prize 5000 (2500 + 2500) H).
Defined.

(** X8.  When [tg.sendData] throws in the timer of [showResult], the [catch]
    block logs the error and hides the result panel: [tg.close ()] is not
    called and the view stays open, with the rest of the state as it
    was. *)
Theorem sendData_failure_leaves_view_open
  (h : Host) (s : App) (amount : Z) (rest : list Z) (e : Exception) :
  timeouts s = amount :: rest ->
  snd (handle h (TimerFired (Throws e)) s)
  = [SendData (stringifyPrize amount); ConsoleError] /\
  ~ In Close (snd (handle h (TimerFired (Throws e)) s)) /\
  resultHidden (dom (fst (handle h (TimerFired (Throws e)) s))) = true /\
  timeouts (fst (handle h (TimerFired (Throws e)) s)) = rest /\
  isSpinning (fst (handle h (TimerFired (Throws e)) s)) = isSpinning s /\
  spinBtnDisabled (dom (fst (handle h (TimerFired (Throws e)) s)))
  = spinBtnDisabled (dom s).
Proof.
  intros Ht. unfold handle. rewrite Ht. unfold sendResult. run_script.
  split; [reflexivity |].
  split.
  { intros [H | [H | []]]; discriminate H. }
  repeat split; reflexivity.
Qed.

Lemma sendData_failure_leaves_view_open_witness :
  timeouts (fst (showResult sampleHost 5000 (initial samplePage))) = [5000%Z] /\
  snd (handle sampleHost (TimerFired (Throws (Error "WebAppDataInvalid")))
         (fst (showResult sampleHost 5000 (initial samplePage))))
  = [SendData (stringifyPrize 5000); ConsoleError].
Proof.
  assert (Ht : timeouts (fst (showResult sampleHost 5000 (initial samplePage)))
               = [5000%Z]) by reflexivity.
  split; [exact Ht |].
  exact (proj1 (sendData_failure_leaves_view_open sampleHost _ 5000 []
                  (Error "WebAppDataInvalid") Ht)).
Defined.

(** X9.  A click on the result panel does not call off the report: however
    often the panel is dismissed while the timer runs, the timer still sends
    the prize and closes the view. *)
Theorem result_click_keeps_report
  (h : Host) (s : App) (amount : Z) (rest : list Z) (clicks : nat) :
  timeouts s = amount :: rest ->
  snd (run h (repeat ResultClicked clicks ++ [TimerFired (Returns tt)]) s)
  = [SendData (stringifyPrize amount); Close].
Proof.
  revert s. induction clicks as [| n IH]; intros s Ht.
  - simpl. unfold andThen, skip. cbn [fst snd]. unfold handle. rewrite Ht.
    unfold sendResult. run_script. reflexivity.
  - simpl repeat. cbn [List.app run]. unfold andThen. cbn [fst snd].
    assert (Hlog : snd (handle h ResultClicked s) = []) by reflexivity.
    rewrite Hlog. cbn [List.app]. apply IH. unfold handle. run_script.
    exact Ht.
Qed.

Lemma result_click_keeps_report_witness :
  timeouts (fst (showResult sampleHost 5000 (initial samplePage))) = [5000%Z] /\
  snd (run sampleHost (repeat ResultClicked 3 ++ [TimerFired (Returns tt)])
         (fst (showResult sampleHost 5000 (initial samplePage))))
  = [SendData (stringifyPrize 5000); Close].
Proof.
  assert (Ht : timeouts (fst (showResult sampleHost 5000 (initial samplePage)))
               = [5000%Z]) by reflexivity.
  split; [exact Ht |].
  exact (result_click_keeps_report sampleHost _ 5000 [] 3 Ht).
Defined.

(** ** What the handlers leave alone *)

Lemma animate_keeps (h : Host) (a : Animation) (t : Z) (s : App) :
  awaitingSpin (fst (animate h a t s)) = awaitingSpin s /\
  count isFetch (snd (animate h a t s)) = 0%nat /\
  painted (fst (animate h a t s)) /\
  spinBtnDisabled (dom (fst (animate h a t s))) = spinBtnDisabled (dom s) /\
  loadingHidden (dom (fst (animate h a t s))) = loadingHidden (dom s).
Proof.
  unfold painted. destruct (finalFrame a t) eqn:E.
  - destruct (targetPrize a) as [amount |] eqn:Hp.
    + rewrite (animate_final h a t s amount Hp E).
      unfold showResult, count. run_script.
      destruct (HapticFeedback h); repeat split; reflexivity.
    + rewrite (animate_final_undefined h a t s Hp E). unfold count.
      run_script. repeat split; reflexivity.
  - rewrite (animate_running h a t s E). unfold count. run_script.
    repeat split; reflexivity.
Qed.

Lemma runCallbacks_keeps
  (h : Host) (t : Z) (reqs : list (nat * Animation)) (s : App) :
  awaitingSpin (fst (runCallbacks h t reqs s)) = awaitingSpin s /\
  count isFetch (snd (runCallbacks h t reqs s)) = 0%nat /\
  (painted s -> painted (fst (runCallbacks h t reqs s))) /\
  spinBtnDisabled (dom (fst (runCallbacks h t reqs s)))
  = spinBtnDisabled (dom s) /\
  loadingHidden (dom (fst (runCallbacks h t reqs s))) = loadingHidden (dom s).
Proof.
  revert s. induction reqs as [| [id a] reqs IH]; intros s.
  - simpl. repeat split; try reflexivity. intros H; exact H.
  - simpl runCallbacks. unfold andThen. cbn [fst snd].
    destruct (animate_keeps h a t s) as (Ha & Hf & Hp & Hd & Hl).
    destruct (IH (fst (animate h a t s))) as (Ha' & Hf' & Hp' & Hd' & Hl').
    split; [rewrite Ha', Ha; reflexivity |].
    split; [rewrite count_app, Hf, Hf'; reflexivity |].
    split; [intros _; apply Hp', Hp |].
    split; [rewrite Hd', Hd; reflexivity | rewrite Hl', Hl; reflexivity].
Qed.

Lemma frame_keeps (h : Host) (t : Z) (s : App) :
  awaitingSpin (fst (handle h (Frame t) s)) = awaitingSpin s /\
  count isFetch (snd (handle h (Frame t) s)) = 0%nat /\
  (painted s -> painted (fst (handle h (Frame t) s))) /\
  spinBtnDisabled (dom (fst (handle h (Frame t) s))) = spinBtnDisabled (dom s) /\
  loadingHidden (dom (fst (handle h (Frame t) s))) = loadingHidden (dom s).
Proof.
  unfold handle, andThen, assign. cbn [fst snd List.app].
  destruct (runCallbacks_keeps h t (frameRequests s) (set_frameRequests [] s))
    as (Ha & Hf & Hp & Hd & Hl).
  split; [exact Ha |]. split; [exact Hf |].
  split; [intros H; apply Hp; exact H |]. split; [exact Hd | exact Hl].
Qed.

(** The continuation of [spin] makes no POST and keeps the drawing.  *)
Lemma spinResume_keeps
  (h : Host) (settled : Completion Response) (now : Z) (s : App) :
  awaitingSpin (fst (spinResume h settled now s)) = awaitingSpin s /\
  count isFetch (snd (spinResume h settled now s)) = 0%nat /\
  (painted s -> painted (fst (spinResume h settled now s))).
Proof.
  unfold painted, spinResume.
  destruct settled as [response | e];
    [destruct (json response) as [data | e];
     [destruct (ok response);
      [| destruct (isAlreadySpun (data_error data));
         [destruct (data_prize data) |]] |] |];
    unfold spinCatch, showAlreadySpun, animateSpin, count; run_script;
    repeat split; try reflexivity; intros H; exact H.
Qed.

(** Only [spin], reached by a click, makes the POST, with the user id of
    the host. *)
Lemma handle_fetch (h : Host) (e : Event) (s : App) (u : Z) :
  In (Fetch u) (snd (handle h e s)) ->
  e = Click /\ userId h = Some u /\ u <> 0%Z /\ isSpinning s = false.
Proof.
  assert (Hcount : forall l, count isFetch l = 0%nat -> ~ In (Fetch u) l).
  { intros l Hl Hin. unfold count in Hl.
    assert (Hf : In (Fetch u) (filter isFetch l))
      by (apply filter_In; split; [exact Hin | reflexivity]).
    destruct (filter isFetch l); [destruct Hf | discriminate Hl]. }
  destruct e as [| settled now | now | sent |]; intros Hin.
  - unfold handle, spin in Hin.
    destruct (isSpinning s) eqn:Hsp; [destruct Hin |].
    destruct (userId h) as [uid |] eqn:Hu.
    2: { destruct Hin as [Hin | []]; discriminate Hin. }
    destruct (Z.eqb_spec uid 0) as [Hz | Hz].
    { destruct Hin as [Hin | []]; discriminate Hin. }
    assert (Hu' : u = uid).
    { destruct (HapticFeedback h); run_script; simpl in Hin.
      - destruct Hin as [Hin | [Hin | []]]; [discriminate Hin |].
        injection Hin as <-. reflexivity.
      - destruct Hin as [Hin | []]. injection Hin as <-. reflexivity. }
    subst u. repeat split; auto.
  - exfalso. unfold handle in Hin.
    destruct (awaitingSpin s) as [| w rest]; [destruct Hin |].
    unfold andThen, assign in Hin. cbn [fst snd List.app] in Hin.
    destruct (spinResume_keeps h settled now (set_awaitingSpin rest s))
      as (_ & Hf & _).
    exact (Hcount _ Hf Hin).
  - exfalso. destruct (frame_keeps h now s) as (_ & Hf & _).
    exact (Hcount _ Hf Hin).
  - exfalso. unfold handle in Hin.
    destruct (timeouts s) as [| amount rest]; [destruct Hin |].
    unfold sendResult in Hin. destruct sent; run_script; simpl in Hin.
    + destruct Hin as [Hin | [Hin | []]]; discriminate Hin.
    + destruct Hin as [Hin | [Hin | []]]; discriminate Hin.
  - exfalso. unfold handle in Hin. run_script. destruct Hin.
Qed.

(** X10.  Every POST of every run carries the user id the host gave, and
    that id is not zero; a host without a usable id never makes the
    script POST. *)
Theorem posts_carry_host_user_id
  (h : Host) (events : list Event) (s : App) (u : Z) :
  In (Fetch u) (snd (run h events s)) ->
  userId h = Some u /\ u <> 0%Z /\ hasUserId h = true.
Proof.
  revert s. induction events as [| e events IH]; intros s Hin.
  - destruct Hin.
  - simpl in Hin. unfold andThen in Hin. cbn [fst snd] in Hin.
    apply in_app_or in Hin. destruct Hin as [Hin | Hin].
    + apply handle_fetch in Hin. destruct Hin as (_ & Hu & Hz & _).
      split; [exact Hu |]. split; [exact Hz |].
      unfold hasUserId. rewrite Hu. apply Z.eqb_neq in Hz. rewrite Hz.
      reflexivity.
    + apply (IH _ Hin).
Qed.

Lemma posts_carry_host_user_id_witness :
  In (Fetch 42) (snd (run sampleHost [Click] (initial samplePage))) /\
  userId sampleHost = Some 42%Z.
Proof.
  assert (Hin : In (Fetch 42)
                  (snd (run sampleHost [Click] (initial samplePage)))).
  { right. left. reflexivity. }
  split; [exact Hin |].
  exact (proj1 (posts_carry_host_user_id sampleHost [Click]
                  (initial samplePage) 42 Hin)).
Defined.

(** X11.  Without a usable user id, [spin] alerts and does nothing else:
    the state is the one before, however often the button is clicked. *)
Theorem spin_without_user_id (h : Host) (s : App) (clicks : nat) :
  hasUserId h = false ->
  isSpinning s = false ->
  run h (repeat Click clicks) s = (s, repeat (Alert NoUserId) clicks).
Proof.
  intros Hu Hsp.
  assert (Hspin : handle h Click s = (s, [Alert NoUserId])).
  { unfold handle, spin. rewrite Hsp. unfold hasUserId in Hu.
    destruct (userId h) as [uid |]; [| reflexivity].
    destruct (Z.eqb uid 0); [reflexivity | discriminate Hu]. }
  induction clicks as [| n IH]; [reflexivity |].
  simpl. unfold andThen. rewrite Hspin. cbn [fst snd]. rewrite IH.
  reflexivity.
Qed.

Lemma spin_without_user_id_witness :
  hasUserId {| userId := None; HapticFeedback := true;
               toLocaleString := JsNumber.toString |} = false /\
  isSpinning (initial samplePage) = false /\
  snd (run {| userId := None; HapticFeedback := true;
              toLocaleString := JsNumber.toString |}
         (repeat Click 2) (initial samplePage))
  = [Alert NoUserId; Alert NoUserId].
Proof.
  split; [reflexivity |]. split; [reflexivity |].
  rewrite (spin_without_user_id
             {| userId := None; HapticFeedback := true;
                toLocaleString := JsNumber.toString |}
             (initial samplePage) 2 eq_refl eq_refl).
  reflexivity.
Defined.

Lemma handle_accounting (h : Host) (e : Event) (s : App) :
  (List.length (awaitingSpin s) + count isFetch (snd (handle h e s))
   <= List.length (awaitingSpin (fst (handle h e s)))
      + if isSpinSettled e then 1 else 0)%nat.
Proof.
  destruct e as [| settled now | now | sent |]; cbn [isSpinSettled].
  - unfold handle, spin.
    destruct (isSpinning s); [cbn; lia |].
    destruct (userId h) as [uid |]; [| cbn; lia].
    destruct (Z.eqb uid 0); [cbn; lia |].
    destruct (HapticFeedback h); unfold count; run_script;
      rewrite length_app; simpl; lia.
  - unfold handle. destruct (awaitingSpin s) as [| w rest] eqn:Haw;
      [cbn; rewrite Haw; simpl; lia |].
    unfold andThen, assign. cbn [fst snd List.app].
    destruct (spinResume_keeps h settled now (set_awaitingSpin rest s))
      as (Ha & Hf & _).
    rewrite Ha, Hf. cbn. lia.
  - destruct (frame_keeps h now s) as (Ha & Hf & _). rewrite Ha, Hf. lia.
  - unfold handle. destruct (timeouts s) as [| amount rest]; [cbn; lia |].
    unfold sendResult, count. destruct sent; run_script; simpl; lia.
  - unfold handle, count. run_script. simpl. lia.
Qed.

Lemma run_accounting (h : Host) (events : list Event) (s : App) :
  (List.length (awaitingSpin s) + count isFetch (snd (run h events s))
   <= List.length (awaitingSpin (fst (run h events s)))
      + List.length (filter isSpinSettled events))%nat.
Proof.
  revert s. induction events as [| e events IH]; intros s.
  - simpl. unfold count. simpl. lia.
  - simpl run. unfold andThen. cbn [fst snd]. rewrite count_app.
    pose proof (handle_accounting h e s) as He.
    pose proof (IH (fst (handle h e s))) as Hr.
    simpl filter. destruct (isSpinSettled e); simpl List.length; lia.
Qed.

(** X12.  In every run from the initial state the POSTs made are at most one
    more than the replies that have settled: the script never has a second
    POST out before the first has been answered. *)
Theorem posts_bounded_by_replies
  (h : Host) (page : Dom) (events : list Event) :
  (count isFetch (snd (run h events (initial page)))
   <= S (List.length (filter isSpinSettled events)))%nat.
Proof.
  pose proof (run_accounting h events (initial page)) as Hacc.
  assert (Hg : guarded (fst (run h events (initial page)))).
  { apply run_guarded. reflexivity. }
  unfold guarded in Hg. cbn [awaitingSpin initial List.length] in Hacc.
  destruct (isSpinning (fst (run h events (initial page)))); lia.
Qed.

(** X13.  After a failed POST the user can try again: the next call of
    [spin] makes a new POST with the user id and sets the flag. *)
Theorem retry_after_failed_spin
  (h : Host) (settled : Completion Response) (now uid : Z) (s : App) :
  failedSpin settled = true ->
  userId h = Some uid ->
  uid <> 0%Z ->
  snd (spin h (fst (spinResume h settled now s)))
  = haptic h ImpactOccurred ++ [Fetch uid] /\
  isSpinning (fst (spin h (fst (spinResume h settled now s)))) = true /\
  awaitingSpin (fst (spin h (fst (spinResume h settled now s))))
  = awaitingSpin s ++ [uid].
Proof.
  intros Hfail Hu Hz.
  assert (Hsp : isSpinning (fst (spinResume h settled now s)) = false /\
                awaitingSpin (fst (spinResume h settled now s))
                = awaitingSpin s).
  { unfold failedSpin in Hfail. unfold spinResume.
    destruct settled as [response | e];
      [destruct (json response) as [data | e];
       [destruct (ok response);
        [discriminate Hfail
        | destruct (isAlreadySpun (data_error data));
          [destruct (data_prize data) |]] |] |];
      unfold spinCatch, showAlreadySpun; run_script; split; reflexivity. }
  destruct Hsp as [Hsp Haw].
  set (s' := fst (spinResume h settled now s)) in *.
  unfold spin. rewrite Hsp, Hu. apply Z.eqb_neq in Hz. rewrite Hz.
  destruct (HapticFeedback h) eqn:E; run_script; rewrite E, Haw;
    repeat split; reflexivity.
Qed.

Lemma retry_after_failed_spin_witness :
  failedSpin (Throws (Error "NetworkError")) = true /\
  userId sampleHost = Some 42%Z /\
  snd (spin sampleHost
         (fst (spinResume sampleHost (Throws (Error "NetworkError")) 0
                 (fst (spin sampleHost (initial samplePage))))))
  = [ImpactOccurred; Fetch 42].
Proof.
  split; [reflexivity |]. split; [reflexivity |].
  refine (proj1 (retry_after_failed_spin sampleHost
                   (Throws (Error "NetworkError")) 0 42
                   (fst (spin sampleHost (initial samplePage)))
                   eq_refl eq_refl _)).
  discriminate.
Defined.

Lemma handle_painted (h : Host) (e : Event) (s : App) :
  painted s -> painted (fst (handle h e s)).
Proof.
  intros Hp. destruct e as [| settled now | now | sent |].
  - unfold handle, spin.
    destruct (isSpinning s); [exact Hp |].
    destruct (userId h) as [uid |]; [| exact Hp].
    destruct (Z.eqb uid 0); [exact Hp |].
    unfold painted in *. destruct (HapticFeedback h); run_script; exact Hp.
  - unfold handle. destruct (awaitingSpin s) as [| w rest]; [exact Hp |].
    unfold andThen, assign. cbn [fst snd].
    apply spinResume_keeps. exact Hp.
  - apply frame_keeps. exact Hp.
  - unfold handle. destruct (timeouts s) as [| amount rest]; [exact Hp |].
    unfold painted, sendResult in *. destruct sent; run_script; exact Hp.
  - unfold handle, painted in *. run_script. exact Hp.
Qed.

(** X14.  In every state the script reaches, the canvas shows the wheel
    drawn at [currentAngle]: no handler changes the angle without
    repainting. *)
Theorem canvas_shows_current_angle
  (h : Host) (page : Dom) (events : list Event) :
  canvasWheel (dom (fst (run h events (initial page))))
  = drawWheel (currentAngle (fst (run h events (initial page)))).
Proof.
  assert (H : forall s, painted s -> painted (fst (run h events s))).
  { induction events as [| e events IH]; intros s Hp; [exact Hp |].
    simpl. unfold andThen. cbn [fst]. apply IH, handle_painted, Hp. }
  apply H. reflexivity.
Qed.

(** ** The page after a spin *)

Lemma frames_keep_controls (h : Host) (ts : list Z) (s : App) :
  spinBtnDisabled (dom (fst (run h (map Frame ts) s))) = spinBtnDisabled (dom s) /\
  loadingHidden (dom (fst (run h (map Frame ts) s))) = loadingHidden (dom s).
Proof.
  revert s. induction ts as [| t ts IH]; intros s; [split; reflexivity |].
  cbn [map run]. unfold andThen. cbn [fst].
  destruct (IH (fst (handle h (Frame t) s))) as [Hd Hl].
  destruct (frame_keeps h t s) as (_ & _ & _ & Hd' & Hl').
  rewrite Hd, Hl, Hd', Hl'. split; reflexivity.
Qed.

Lemma frame_final_page
  (h : Host) (t : Z) (s : App) (id : nat) (a : Animation) (amount : Z) :
  frameRequests s = [(id, a)] ->
  targetPrize a = Some amount ->
  finalFrame a t = true ->
  currentAngle (fst (handle h (Frame t) s)) = rotationTarget a /\
  canvasSpinning (dom (fst (handle h (Frame t) s))) = false /\
  resultHidden (dom (fst (handle h (Frame t) s))) = false.
Proof.
  intros Hs Hp Hf. unfold handle. rewrite Hs. cbn [runCallbacks].
  unfold andThen, assign, skip. cbn [fst snd].
  rewrite !(animate_final h a t _ amount Hp Hf). unfold showResult.
  run_script. repeat split; reflexivity.
Qed.

Lemma click_disables (h : Host) (page : Dom) (uid : Z) :
  userId h = Some uid ->
  uid <> 0%Z ->
  spinBtnDisabled (dom (fst (handle h Click (initial page)))) = true.
Proof.
  intros Hu Hn. unfold handle, spin. cbn [isSpinning initial].
  rewrite Hu. apply Z.eqb_neq in Hn. rewrite Hn.
  destruct (HapticFeedback h); run_script; reflexivity.
Qed.

Lemma reply_keeps_controls
  (h : Host) (s : App) (uid amount now : Z) (e : option string) :
  awaitingSpin s = [uid] ->
  let reply :=
    Returns {| ok := true;
               json := Returns {| data_error := e;
                                  data_prize := Some amount |} |} in
  awaitingSpin (fst (handle h (SpinSettled reply now) s)) = [] /\
  spinBtnDisabled (dom (fst (handle h (SpinSettled reply now) s)))
  = spinBtnDisabled (dom s) /\
  loadingHidden (dom (fst (handle h (SpinSettled reply now) s))) = true.
Proof.
  intros Haw reply. unfold handle. rewrite Haw. subst reply.
  unfold spinResume. cbn [json ok data_prize].
  unfold andThen, assign. cbn [fst snd]. rewrite animateSpin_returns.
  cbn. repeat split; reflexivity.
Qed.

(** X15.  When a spin has run to its end, from the click through the reply
    with the prize to the last frame, the wheel rests at the rotation of
    that prize, the result panel shows the formatted prize, one report
    timer is armed, the flag is down, and the button is still disabled:
    the success path does not enable it again. *)
Theorem page_after_successful_spin
  (h : Host) (page : Dom) (uid amount now : Z) (e : option string)
  (before : list Z) (t : Z) :
  userId h = Some uid ->
  uid <> 0%Z ->
  (forall t', In t' before -> (t' < now + 4000)%Z) ->
  (now + 4000 <= t)%Z ->
  let reply :=
    Returns {| ok := true;
               json := Returns {| data_error := e;
                                  data_prize := Some amount |} |} in
  let s :=
    fst (run h ([Click; SpinSettled reply now] ++ map Frame (before ++ [t]))
           (initial page)) in
  isSpinning s = false /\
  currentAngle s = totalRotation (indexOf PRIZES amount) /\
  canvasSpinning (dom s) = false /\
  spinBtnDisabled (dom s) = true /\
  loadingHidden (dom s) = true /\
  resultHidden (dom s) = false /\
  resultPrizeText (dom s) = formatPrize h amount /\
  timeouts s = [amount] /\
  frameRequests s = [] /\
  awaitingSpin s = [].
Proof.
  intros Hu Hn Hb Ht reply s.
  set (s1 := fst (handle h Click (initial page))).
  set (s2 := fst (handle h (SpinSettled reply now) s1)).
  set (s3 := fst (run h (map Frame before) s2)).
  assert (Hs : s = fst (handle h (Frame t) s3)).
  { subst s. cbn [List.app run]. unfold andThen. cbn [fst].
    fold s1. fold s2. rewrite map_app, run_app. cbn [fst map run].
    unfold andThen, skip. cbn [fst]. reflexivity. }
  rewrite Hs. clear Hs s.
  assert (H2 : frameRequests s2 = [(1%nat, closureOf now amount)] /\
               timeouts s2 = [] /\ awaitingSpin s2 = [] /\
               spinBtnDisabled (dom s2) = true /\
               loadingHidden (dom s2) = true).
  { destruct (click_sends h page uid Hu Hn) as (_ & Haw1 & Hfr1 & Hto1 & Hid1).
    pose proof (click_disables h page uid Hu Hn) as Hd1.
    fold s1 in Haw1, Hfr1, Hto1, Hid1, Hd1.
    destruct (reply_starts_animation h s1 uid amount now e Haw1)
      as (_ & Hfr & Hto & _).
    destruct (reply_keeps_controls h s1 uid amount now e Haw1)
      as (Haw & Hd & Hl).
    fold reply in Hfr, Hto, Haw, Hd, Hl. fold s2 in Hfr, Hto, Haw, Hd, Hl.
    rewrite Hfr, Hto, Haw, Hd, Hl, Hfr1, Hto1, Hid1, Hd1.
    repeat split; reflexivity. }
  destruct H2 as (Hfr2 & Hto2 & Haw2 & Hd2 & Hl2).
  assert (Hbefore : forall t', In t' before ->
                               finalFrame (closureOf now amount) t' = false).
  { intros t' Hin. unfold finalFrame. apply Z.leb_gt. cbn. apply Hb, Hin. }
  assert (Hlast : finalFrame (closureOf now amount) t = true).
  { unfold finalFrame. apply Z.leb_le. cbn. exact Ht. }
  destruct (frames_running h _ before s2 _ Hfr2 Hbefore)
    as (_ & (id' & Hfr3) & Haw3 & _ & Hto3).
  destruct (frames_keep_controls h before s2) as [Hd3 Hl3].
  fold s3 in Hfr3, Haw3, Hto3, Hd3, Hl3.
  destruct (frame_final h t s3 id' _ amount Hfr3 eq_refl Hlast)
    as (_ & Hfr4 & Haw4 & Hsp4 & Hto4 & Htxt4).
  destruct (frame_final_page h t s3 id' _ amount Hfr3 eq_refl Hlast)
    as (Hang4 & Hcs4 & Hrh4).
  destruct (frame_keeps h t s3) as (_ & _ & _ & Hd4 & Hl4).
  rewrite Hto4, Hto3, Hto2, Haw4, Haw3, Haw2, Hd4, Hd3, Hd2, Hl4, Hl3, Hl2.
  repeat split; assumption.
Qed.

Lemma page_after_successful_spin_witness :
  userId sampleHost = Some 42%Z /\
  spinBtnDisabled
    (dom (fst (run sampleHost
                 ([Click;
                   SpinSettled
                     (Returns {| ok := true;
                                 json := Returns {| data_error := None;
                                                    data_prize := Some 15000%Z |} |})
                     0]
                  ++ map Frame ([16; 2000] ++ [4016])%Z)
                 (initial samplePage))))
  = true.
Proof.
  split; [reflexivity |].
  refine (proj1 (proj2 (proj2 (proj2
    (page_after_successful_spin sampleHost samplePage 42 15000 0 None
       [16; 2000]%Z 4016%Z eq_refl _ _ _))))).
  - discriminate.
  - intros t' [<- | [<- | []]]; reflexivity.
  - discriminate.
Defined.

(** ** The start of the page *)

Lemma checkCanSpin_keeps (h : Host) (s : App) :
  sameSpinState s (fst (fst (checkCanSpin h s))) /\
  count isFetch (snd (fst (checkCanSpin h s))) = 0%nat /\
  (snd (checkCanSpin h s) = None <-> hasUserId h = false) /\
  (forall uid, snd (checkCanSpin h s) = Some uid ->
               userId h = Some uid /\ uid <> 0%Z /\
               fst (checkCanSpin h s)
               = (with_dom (set_loadingHidden false) s, [])).
Proof.
  unfold checkCanSpin, hasUserId, sameSpinState, count.
  destruct (userId h) as [uid |].
  - destruct (Z.eqb_spec uid 0) as [Hz | Hz]; run_script.
    + repeat split; try reflexivity; intros; discriminate.
    + repeat split; try reflexivity; try (intros; discriminate).
      * injection H as <-. reflexivity.
      * injection H as <-. exact Hz.
  - run_script. repeat split; try reflexivity; intros; discriminate.
Qed.

Lemma checkCanSpinResume_keeps
  (h : Host) (settled : Completion CanSpinResponse) (s : App) :
  sameSpinState s (fst (fst (checkCanSpinResume h settled s))) /\
  count isFetch (snd (fst (checkCanSpinResume h settled s))) = 0%nat /\
  snd (checkCanSpinResume h settled s) = eligible settled /\
  loadingHidden (dom (fst (fst (checkCanSpinResume h settled s)))) = true.
Proof.
  unfold checkCanSpinResume, eligible, sameSpinState, count.
  destruct settled as [response | e];
    [destruct (can_spin_json response) as [data | e];
     [destruct (data_can_spin data);
      [| destruct (data_prior_prize data)] |] |];
    unfold checkCanSpinCatch, showAlreadySpun; run_script;
    repeat split; reflexivity.
Qed.

(** X16.  With a usable user id and a reply of the eligibility check that
    parses with a truthy [can_spin], the start of the page (at once, or on
    [DOMContentLoaded] when the document was still loading) ends in the
    state [initial], with the listener of [spin] on the button: one
    request to the server, no alert, the loading panel hidden, no flag
    and no callback pending. *)
Theorem start_reaches_initial
  (h : Host) (loading : bool) (page : Dom) (uid : Z)
  (settled : Completion CanSpinResponse) :
  userId h = Some uid ->
  uid <> 0%Z ->
  eligible settled = true ->
  let p := fst (pageRun h (startEvents loading settled)
                  (fst (boot h loading page))) in
  script p = initial (set_loadingHidden true page) /\
  spinListener p = true /\
  resultListener p = true /\
  awaitingCanSpin p = [] /\
  snd (boot h loading page)
  ++ snd (pageRun h (startEvents loading settled) (fst (boot h loading page)))
  = [Expand; Ready; FetchCanSpin uid].
Proof.
  intros Hu Hz He p. subst p.
  apply Z.eqb_neq in Hz.
  unfold eligible in He.
  destruct settled as [response | e]; [| discriminate He].
  destruct (can_spin_json response) as [data | e] eqn:Hj; [| discriminate He].
  destruct loading; unfold startEvents, boot;
    cbn [List.app pageRun pageHandle fst snd initPending loaded];
    unfold init, checkCanSpin; rewrite Hu, Hz; run_script;
    cbn [List.app pageRun pageHandle fst snd initPending awaitingCanSpin
         script map];
    unfold checkCanSpinResume; rewrite Hj, He; run_script;
    cbn [initResume script spinListener resultListener awaitingCanSpin
         fst snd map List.app orb];
    repeat split; reflexivity.
Qed.

Lemma start_reaches_initial_witness :
  userId sampleHost = Some 42%Z /\
  eligible (Returns {| can_spin_ok := true;
                       can_spin_json :=
                         Returns {| data_can_spin := true;
                                    data_prior_prize := None |} |}) = true /\
  script
    (fst (pageRun sampleHost
            (startEvents true
               (Returns {| can_spin_ok := true;
                           can_spin_json :=
                             Returns {| data_can_spin := true;
                                        data_prior_prize := None |} |}))
            (fst (boot sampleHost true samplePage))))
  = initial (set_loadingHidden true samplePage).
Proof.
  split; [reflexivity |]. split; [reflexivity |].
  refine (proj1 (start_reaches_initial sampleHost true samplePage 42
                   (Returns {| can_spin_ok := true;
                               can_spin_json :=
                                 Returns {| data_can_spin := true;
                                            data_prior_prize := None |} |})
                   eq_refl _ eq_refl)).
  discriminate.
Defined.

(** X17.  Whatever the reply of the eligibility check, and whatever its HTTP
    status, the start of the page puts the listener of [spin] on the button
    exactly when the reply parsed with a truthy [can_spin]; in every case
    the listener of the result panel is added, the loading panel ends
    hidden and the flag is down. *)
Theorem listener_iff_eligible
  (h : Host) (loading : bool) (page : Dom) (uid : Z)
  (settled : Completion CanSpinResponse) :
  userId h = Some uid ->
  uid <> 0%Z ->
  let p := fst (pageRun h (startEvents loading settled)
                  (fst (boot h loading page))) in
  spinListener p = eligible settled /\
  resultListener p = true /\
  loadingHidden (dom (script p)) = true /\
  isSpinning (script p) = false /\
  awaitingSpin (script p) = [].
Proof.
  intros Hu Hz p. subst p.
  apply Z.eqb_neq in Hz.
  destruct loading; unfold startEvents, boot;
    cbn [List.app pageRun pageHandle fst snd initPending loaded];
    unfold init, checkCanSpin; rewrite Hu, Hz; run_script;
    cbn [List.app pageRun pageHandle fst snd initPending awaitingCanSpin
         script map loaded spinListener resultListener];
    match goal with
    | |- context [checkCanSpinResume h settled ?s] =>
        destruct (checkCanSpinResume_keeps h settled s)
          as ((Hsp & Haw & _) & _ & Hret & Hl)
    end;
    cbn [initResume script spinListener resultListener orb];
    rewrite ?Hret, ?Hl, ?Hsp, ?Haw; repeat split; reflexivity.
Qed.

Lemma listener_iff_eligible_witness :
  userId sampleHost = Some 42%Z /\
  spinListener
    (fst (pageRun sampleHost
            (startEvents false
               (Returns {| can_spin_ok := false;
                           can_spin_json := Throws (Error "SyntaxError") |}))
            (fst (boot sampleHost false samplePage))))
  = false.
Proof.
  split; [reflexivity |].
  refine (proj1 (listener_iff_eligible sampleHost false samplePage 42
                   (Returns {| can_spin_ok := false;
                               can_spin_json := Throws (Error "SyntaxError") |})
                   eq_refl _)).
  discriminate.
Defined.

(** X18.  What [checkCanSpin] shows when the user cannot spin.  A reply
    that parses with a falsy [can_spin] and a prize shows the already-spun
    panel with the formatted prize, hides the button and dims the canvas,
    with no alert.  A reply that does not parse, a failed request, or a
    falsy [can_spin] without a prize (where [formatPrize] throws) is
    logged and alerted as a connection error, and the panel is left as it
    was.  In both cases the function returns [false] and the loading panel
    is hidden. *)
Theorem ineligible_outcomes
  (h : Host) (settled : Completion CanSpinResponse) (s : App) :
  eligible settled = false ->
  let r := checkCanSpinResume h settled s in
  snd r = false /\
  loadingHidden (dom (fst (fst r))) = true /\
  match settled with
  | Returns {| can_spin_json :=
                 Returns {| data_can_spin := false;
                            data_prior_prize := Some amount |} |} =>
      alreadySpunPrizeText (dom (fst (fst r))) = formatPrize h amount /\
      alreadySpunHidden (dom (fst (fst r))) = false /\
      spinBtnDisplay (dom (fst (fst r))) = Some "none"%string /\
      canvasOpacity (dom (fst (fst r))) = Some "0.5"%string /\
      snd (fst r) = []
  | _ =>
      alreadySpunPrizeText (dom (fst (fst r))) = alreadySpunPrizeText (dom s) /\
      alreadySpunHidden (dom (fst (fst r))) = alreadySpunHidden (dom s) /\
      spinBtnDisplay (dom (fst (fst r))) = spinBtnDisplay (dom s) /\
      canvasOpacity (dom (fst (fst r))) = canvasOpacity (dom s) /\
      snd (fst r) = [ConsoleError; Alert NoConnection]
  end.
Proof.
  intros He r. subst r. unfold eligible in He. unfold checkCanSpinResume.
  destruct settled as [[status [[can prior] | e]] | e]; cbn [can_spin_json] in *.
  - cbn [data_can_spin data_prior_prize] in *. subst can.
    destruct prior as [amount |];
      unfold checkCanSpinCatch, showAlreadySpun; run_script;
      repeat split; reflexivity.
  - unfold checkCanSpinCatch. run_script. repeat split; reflexivity.
  - unfold checkCanSpinCatch. run_script. repeat split; reflexivity.
Qed.

Lemma ineligible_outcomes_witness :
  eligible (Returns {| can_spin_ok := true;
                       can_spin_json :=
                         Returns {| data_can_spin := false;
                                    data_prior_prize := Some 15000%Z |} |})
  = false /\
  alreadySpunPrizeText
    (dom (fst (fst (checkCanSpinResume sampleHost
                      (Returns {| can_spin_ok := true;
                                  can_spin_json :=
                                    Returns {| data_can_spin := false;
                                               data_prior_prize := Some 15000%Z |} |})
                      (initial samplePage)))))
  = formatPrize sampleHost 15000.
Proof.
  split; [reflexivity |].
  exact (proj1 (proj2 (proj2
    (ineligible_outcomes sampleHost
       (Returns {| can_spin_ok := true;
                   can_spin_json :=
                     Returns {| data_can_spin := false;
                                data_prior_prize := Some 15000%Z |} |})
       (initial samplePage) eq_refl)))).
Defined.

(** ** What the page never does *)

Lemma no_fetch_lifted (l : list Effect) (u : Z) :
  count isFetch l = 0%nat -> ~ In (OfScript (Fetch u)) (map OfScript l).
Proof.
  intros Hl Hin. apply in_map_iff in Hin. destruct Hin as (e & He & Hin).
  injection He as ->. unfold count in Hl.
  assert (Hf : In (Fetch u) (filter isFetch l))
    by (apply filter_In; split; [exact Hin | reflexivity]).
  destruct (filter isFetch l); [destruct Hf | discriminate Hl].
Qed.

Lemma lifted_fetch (h : Host) (e : Event) (s : App) (u : Z) :
  e <> Click -> ~ In (OfScript (Fetch u)) (map OfScript (snd (handle h e s))).
Proof.
  intros Hne Hin. apply in_map_iff in Hin. destruct Hin as (x & Hx & Hin).
  injection Hx as ->. apply handle_fetch in Hin. destruct Hin as [Hc _].
  contradiction.
Qed.

Lemma init_effects (h : Host) (p : Page) (u : Z) :
  spinListener (fst (init h p)) = spinListener p /\
  initPending (fst (init h p)) = initPending p /\
  sameSpinState (script p) (script (fst (init h p))) /\
  ~ In (OfScript (Fetch u)) (snd (init h p)) /\
  (List.length (filter isFetchCanSpin (snd (init h p))) <= 1)%nat /\
  (hasUserId h = false ->
   awaitingCanSpin (fst (init h p)) = awaitingCanSpin p /\
   ~ In (FetchCanSpin u) (snd (init h p))).
Proof.
  unfold init.
  set (drawn := with_dom (set_canvasWheel (drawWheel 0)) (script p)).
  destruct (checkCanSpin_keeps h drawn) as (Hsame & Hf & Hnone & Hsome).
  assert (Hcan : forall l, List.length (filter isFetchCanSpin (map OfScript l))
                           = 0%nat).
  { induction l as [| x l IH]; [reflexivity | exact IH]. }
  destruct (checkCanSpin h drawn) as [r [uid |]] eqn:E; cbn [fst snd] in *.
  - split; [reflexivity |]. split; [reflexivity |].
    split; [exact Hsame |].
    split.
    { intros Hin. apply in_app_or in Hin. destruct Hin as [Hin | [Hin | []]].
      - exact (no_fetch_lifted _ u Hf Hin).
      - discriminate Hin. }
    split; [rewrite filter_app, length_app, Hcan; simpl; lia |].
    intros Hno. apply Hnone in Hno. discriminate Hno.
  - split; [apply orb_false_r |]. split; [reflexivity |].
    split; [exact Hsame |].
    split; [exact (no_fetch_lifted _ u Hf) |].
    split; [rewrite Hcan; lia |].
    intros _. split; [reflexivity |].
    intros Hin. apply in_map_iff in Hin. destruct Hin as (x & Hx & _).
    discriminate Hx.
Qed.

Lemma pageHandle_without_listener (h : Host) (e : PageEvent) (p : Page) (u : Z) :
  spinListener p = false ->
  eligibleEvent e = false ->
  spinListener (fst (pageHandle h e p)) = false /\
  ~ In (OfScript (Fetch u)) (snd (pageHandle h e p)).
Proof.
  intros Hl He.
  destruct e as [| settled | | | settled now | now | sent]; unfold pageHandle.
  - destruct (initPending p); [| split; [exact Hl | intros []]].
    match goal with
    | |- context [init h ?q] =>
        destruct (init_effects h q u) as (Hs & _ & _ & Hf & _)
    end.
    rewrite Hs. split; [exact Hl | exact Hf].
  - destruct (awaitingCanSpin p) as [| w rest]; [split; [exact Hl | intros []] |].
    destruct (checkCanSpinResume_keeps h settled (script p))
      as (_ & Hf & Hret & _).
    cbn [fst snd initResume spinListener]. cbn [eligibleEvent] in He.
    rewrite Hret, He, Hl. split; [reflexivity | exact (no_fetch_lifted _ u Hf)].
  - rewrite Hl. split; [exact Hl | intros []].
  - destruct (resultListener p); [| split; [exact Hl | intros []]].
    split; [exact Hl | apply lifted_fetch; discriminate].
  - split; [exact Hl | apply lifted_fetch; discriminate].
  - split; [exact Hl | apply lifted_fetch; discriminate].
  - split; [exact Hl | apply lifted_fetch; discriminate].
Qed.

(** X19.  No POST without eligibility: as long as no reply of the
    eligibility check has parsed with a truthy [can_spin], the listener of
    [spin] is not on the button and nothing the page does, whatever is
    clicked and whatever else arrives, makes a POST. *)
Theorem no_post_without_eligibility
  (h : Host) (loading : bool) (page : Dom) (events : list PageEvent) (u : Z) :
  forallb (fun e => negb (eligibleEvent e)) events = true ->
  spinListener (fst (pageRun h events (fst (boot h loading page)))) = false /\
  ~ In (OfScript (Fetch u))
       (snd (boot h loading page)
        ++ snd (pageRun h events (fst (boot h loading page)))).
Proof.
  intros Hev.
  assert (Hrun : forall p, spinListener p = false ->
                   spinListener (fst (pageRun h events p)) = false /\
                   ~ In (OfScript (Fetch u)) (snd (pageRun h events p))).
  { induction events as [| e events IH]; intros p Hl.
    - split; [exact Hl | intros []].
    - cbn [forallb] in Hev. apply andb_prop in Hev. destruct Hev as [He Hev].
      apply negb_true_iff in He.
      destruct (pageHandle_without_listener h e p u Hl He) as [Hl' Hf'].
      destruct (IH Hev _ Hl') as [Hl'' Hf''].
      cbn [pageRun fst snd]. split; [exact Hl'' |].
      intros Hin. apply in_app_or in Hin. tauto. }
  assert (Hboot : spinListener (fst (boot h loading page)) = false /\
                  ~ In (OfScript (Fetch u)) (snd (boot h loading page))).
  { unfold boot. destruct loading; cbn [fst snd].
    - split; [reflexivity |].
      intros [Hin | [Hin | []]]; discriminate Hin.
    - destruct (init_effects h (loaded page) u) as (Hs & _ & _ & Hf & _).
      rewrite Hs. split; [reflexivity |].
      intros [Hin | [Hin | Hin]]; try discriminate Hin. exact (Hf Hin). }
  destruct Hboot as [Hl Hf]. destruct (Hrun _ Hl) as [Hl' Hf'].
  split; [exact Hl' |].
  intros Hin. apply in_app_or in Hin. tauto.
Qed.

Lemma no_post_without_eligibility_witness :
  forallb (fun e => negb (eligibleEvent e))
    [CanSpinSettled (Throws (Error "NetworkError")); SpinButtonClicked;
     SpinButtonClicked] = true /\
  ~ In (OfScript (Fetch 42))
       (snd (boot sampleHost false samplePage)
        ++ snd (pageRun sampleHost
                  [CanSpinSettled (Throws (Error "NetworkError"));
                   SpinButtonClicked; SpinButtonClicked]
                  (fst (boot sampleHost false samplePage)))).
Proof.
  split; [reflexivity |].
  exact (proj2 (no_post_without_eligibility sampleHost false samplePage
                  [CanSpinSettled (Throws (Error "NetworkError"));
                   SpinButtonClicked; SpinButtonClicked] 42 eq_refl)).
Defined.

Lemma pageHandle_without_user (h : Host) (e : PageEvent) (p : Page) (u : Z) :
  hasUserId h = false ->
  spinListener p = false ->
  awaitingCanSpin p = [] ->
  spinListener (fst (pageHandle h e p)) = false /\
  awaitingCanSpin (fst (pageHandle h e p)) = [] /\
  ~ In (OfScript (Fetch u)) (snd (pageHandle h e p)) /\
  ~ In (FetchCanSpin u) (snd (pageHandle h e p)).
Proof.
  intros Hno Hl Haw.
  assert (Hlift : forall l, ~ In (FetchCanSpin u) (map OfScript l)).
  { intros l Hin. apply in_map_iff in Hin. destruct Hin as (x & Hx & _).
    discriminate Hx. }
  destruct e as [| settled | | | settled now | now | sent]; unfold pageHandle.
  - destruct (initPending p); [| repeat split; auto].
    match goal with
    | |- context [init h ?q] =>
        destruct (init_effects h q u) as (Hs & _ & _ & Hf & _ & Hu)
    end.
    destruct (Hu Hno) as [Ha Hc]. rewrite Hs, Ha.
    repeat split; auto.
  - rewrite Haw. repeat split; auto.
  - rewrite Hl. repeat split; auto.
  - destruct (resultListener p); [| repeat split; auto].
    unfold lift. cbn [fst snd set_script spinListener awaitingCanSpin].
    repeat split; auto; try (apply lifted_fetch; discriminate).
  - unfold lift. cbn [fst snd set_script spinListener awaitingCanSpin].
    repeat split; auto; try (apply lifted_fetch; discriminate).
  - unfold lift. cbn [fst snd set_script spinListener awaitingCanSpin].
    repeat split; auto; try (apply lifted_fetch; discriminate).
  - unfold lift. cbn [fst snd set_script spinListener awaitingCanSpin].
    repeat split; auto; try (apply lifted_fetch; discriminate).
Qed.

(** X20.  Without a usable user id the page makes no request at all: neither
    the eligibility check nor a POST goes out, whatever events arrive,
    and the listener of [spin] is never put on the button. *)
Theorem no_requests_without_user_id
  (h : Host) (loading : bool) (page : Dom) (events : list PageEvent) (u : Z) :
  hasUserId h = false ->
  spinListener (fst (pageRun h events (fst (boot h loading page)))) = false /\
  ~ In (OfScript (Fetch u))
       (snd (boot h loading page)
        ++ snd (pageRun h events (fst (boot h loading page)))) /\
  ~ In (FetchCanSpin u)
       (snd (boot h loading page)
        ++ snd (pageRun h events (fst (boot h loading page)))).
Proof.
  intros Hno.
  assert (Hrun : forall p, spinListener p = false -> awaitingCanSpin p = [] ->
                   spinListener (fst (pageRun h events p)) = false /\
                   ~ In (OfScript (Fetch u)) (snd (pageRun h events p)) /\
                   ~ In (FetchCanSpin u) (snd (pageRun h events p))).
  { induction events as [| e events IH]; intros p Hl Haw.
    - repeat split; auto.
    - destruct (pageHandle_without_user h e p u Hno Hl Haw)
        as (Hl' & Haw' & Hf' & Hc').
      destruct (IH _ Hl' Haw') as (Hl'' & Hf'' & Hc'').
      cbn [pageRun fst snd]. split; [exact Hl'' |].
      split; intros Hin; apply in_app_or in Hin; tauto. }
  assert (Hboot : spinListener (fst (boot h loading page)) = false /\
                  awaitingCanSpin (fst (boot h loading page)) = [] /\
                  ~ In (OfScript (Fetch u)) (snd (boot h loading page)) /\
                  ~ In (FetchCanSpin u) (snd (boot h loading page))).
  { unfold boot. destruct loading; cbn [fst snd].
    - repeat split; try reflexivity;
        intros [Hin | [Hin | []]]; discriminate Hin.
    - destruct (init_effects h (loaded page) u) as (Hs & _ & _ & Hf & _ & Hu).
      destruct (Hu Hno) as [Ha Hc]. rewrite Hs, Ha.
      repeat split; try reflexivity.
      + intros [Hin | [Hin | Hin]]; try discriminate Hin. exact (Hf Hin).
      + intros [Hin | [Hin | Hin]]; try discriminate Hin. exact (Hc Hin). }
  destruct Hboot as (Hl & Haw & Hf & Hc).
  destruct (Hrun _ Hl Haw) as (Hl' & Hf' & Hc').
  split; [exact Hl' |].
  split; intros Hin; apply in_app_or in Hin; tauto.
Qed.

Lemma no_requests_without_user_id_witness :
  hasUserId {| userId := Some 0%Z; HapticFeedback := false;
               toLocaleString := JsNumber.toString |} = false /\
  ~ In (FetchCanSpin 0)
       (snd (boot {| userId := Some 0%Z; HapticFeedback := false;
                     toLocaleString := JsNumber.toString |} false samplePage)
        ++ snd (pageRun {| userId := Some 0%Z; HapticFeedback := false;
                           toLocaleString := JsNumber.toString |}
                  [SpinButtonClicked]
                  (fst (boot {| userId := Some 0%Z; HapticFeedback := false;
                                toLocaleString := JsNumber.toString |}
                          false samplePage)))).
Proof.
  split; [reflexivity |].
  exact (proj2 (proj2 (no_requests_without_user_id
                         {| userId := Some 0%Z; HapticFeedback := false;
                            toLocaleString := JsNumber.toString |}
                         false samplePage [SpinButtonClicked] 0 eq_refl))).
Defined.

Lemma pageHandle_asks_once (h : Host) (e : PageEvent) (p : Page) :
  initPending (fst (pageHandle h e p)) = initPending p /\
  (List.length (filter isFetchCanSpin (snd (pageHandle h e p)))
   <= if initPending p && isDOMContentLoaded e then 1 else 0)%nat.
Proof.
  assert (Hcan : forall l, List.length (filter isFetchCanSpin (map OfScript l))
                           = 0%nat).
  { induction l as [| x l IH]; [reflexivity | exact IH]. }
  destruct e as [| settled | | | settled now | now | sent]; unfold pageHandle;
    cbn [isDOMContentLoaded]; rewrite ?andb_false_r, ?andb_true_r.
  - destruct (initPending p) eqn:E; [| split; [exact E | cbn; lia]].
    destruct (init_effects h p 0%Z) as (_ & Hi & _ & _ & Hc & _).
    rewrite Hi. split; [exact E | exact Hc].
  - destruct (awaitingCanSpin p) as [| w rest]; [split; [reflexivity | cbn; lia] |].
    cbn [fst snd initResume initPending]. rewrite Hcan.
    split; [reflexivity | lia].
  - destruct (spinListener p && negb (spinBtnDisabled (dom (script p))));
      [| split; [reflexivity | cbn; lia]].
    unfold lift. cbn [fst snd set_script initPending]. rewrite Hcan.
    split; [reflexivity | lia].
  - destruct (resultListener p); [| split; [reflexivity | cbn; lia]].
    unfold lift. cbn [fst snd set_script initPending]. rewrite Hcan.
    split; [reflexivity | lia].
  - unfold lift. cbn [fst snd set_script initPending]. rewrite Hcan.
    split; [reflexivity | lia].
  - unfold lift. cbn [fst snd set_script initPending]. rewrite Hcan.
    split; [reflexivity | lia].
  - unfold lift. cbn [fst snd set_script initPending]. rewrite Hcan.
    split; [reflexivity | lia].
Qed.

(** X21.  The eligibility check is asked by [init] and by nothing else,
    at most once in each of its runs.  A script loaded into a parsed
    document runs [init] once, at the load, and asks at most once in the
    life of the page.  A script loaded while the document is loading leaves
    [init] as a listener of [DOMContentLoaded], added without [once] and
    never removed: the checks are at most as many as the event is
    dispatched, so at most one where it is dispatched once. *)
Theorem eligibility_asked_at_most_once
  (h : Host) (loading : bool) (page : Dom) (events : list PageEvent) :
  (List.length
     (filter isFetchCanSpin
        (snd (boot h loading page)
         ++ snd (pageRun h events (fst (boot h loading page)))))
   <= if loading then List.length (filter isDOMContentLoaded events) else 1)%nat.
Proof.
  assert (Hrun : forall p,
             (List.length (filter isFetchCanSpin (snd (pageRun h events p)))
              <= if initPending p
                 then List.length (filter isDOMContentLoaded events)
                 else 0)%nat).
  { induction events as [| e events IH]; intros p.
    - cbn. destruct (initPending p); lia.
    - cbn [pageRun fst snd]. rewrite filter_app, length_app.
      destruct (pageHandle_asks_once h e p) as [Hi He].
      pose proof (IH (fst (pageHandle h e p))) as Hr.
      rewrite Hi in Hr. cbn [filter].
      destruct (initPending p); destruct (isDOMContentLoaded e);
        cbn [andb List.length] in *; lia. }
  rewrite filter_app, length_app.
  pose proof (Hrun (fst (boot h loading page))) as Hr.
  unfold boot in *. destruct loading; cbn [fst snd] in *.
  - cbn [initPending] in Hr. cbn [filter isFetchCanSpin List.length]. lia.
  - destruct (init_effects h (loaded page) 0%Z) as (_ & Hi & _ & _ & Hc & _).
    rewrite Hi in Hr. cbn [initPending loaded] in Hr.
    cbn [List.app filter isFetchCanSpin]. lia.
Qed.

(** ** One award in the life of the page *)

Lemma runCallbacks_flag
  (h : Host) (t : Z) (reqs : list (nat * Animation)) (s : App) :
  isSpinning (fst (runCallbacks h t reqs s)) = true -> isSpinning s = true.
Proof.
  revert s. induction reqs as [| [id a] reqs IH]; intros s H; [exact H |].
  simpl runCallbacks in H. unfold andThen in H. cbn [fst] in H.
  apply IH in H. destruct (finalFrame a t) eqn:E.
  - destruct (targetPrize a) as [amount |] eqn:Hp.
    + rewrite (animate_final h a t s amount Hp E) in H.
      unfold showResult in H. run_script. discriminate H.
    + rewrite (animate_final_undefined h a t s Hp E) in H.
      run_script. discriminate H.
  - rewrite (animate_running h a t s E) in H. exact H.
Qed.

Lemma timer_keeps (h : Host) (sent : Completion unit) (s : App) :
  isSpinning (fst (handle h (TimerFired sent) s)) = isSpinning s /\
  awaitingSpin (fst (handle h (TimerFired sent) s)) = awaitingSpin s /\
  spinBtnDisabled (dom (fst (handle h (TimerFired sent) s)))
  = spinBtnDisabled (dom s).
Proof.
  unfold handle. destruct (timeouts s) as [| amount rest];
    [repeat split; reflexivity |].
  unfold sendResult. destruct sent; run_script; repeat split; reflexivity.
Qed.

Lemma handle_disabledWhileSpinning (h : Host) (e : Event) (s : App) :
  disabledWhileSpinning s -> disabledWhileSpinning (fst (handle h e s)).
Proof.
  unfold disabledWhileSpinning. intros Hk.
  destruct e as [| settled now | now | sent |].
  - unfold handle, spin.
    destruct (isSpinning s) eqn:Hsp; [cbn; rewrite Hsp; exact Hk |].
    destruct (userId h) as [uid |]; [| cbn; rewrite Hsp; exact Hk].
    destruct (Z.eqb uid 0); [cbn; rewrite Hsp; exact Hk |].
    destruct (HapticFeedback h); run_script; reflexivity.
  - unfold handle. destruct (awaitingSpin s) as [| w rest]; [exact Hk |].
    unfold andThen, assign, spinResume. cbn [fst snd].
    destruct settled as [response | x];
      [destruct (json response) as [data | x];
       [destruct (ok response);
        [| destruct (isAlreadySpun (data_error data));
           [destruct (data_prize data) |]] |] |];
      unfold spinCatch, showAlreadySpun, animateSpin; run_script;
      try (intros H; discriminate H); exact Hk.
  - intros H. destruct (frame_keeps h now s) as (_ & _ & _ & Hd & _).
    rewrite Hd. apply Hk.
    unfold handle, andThen, assign in H. cbn [fst snd] in H.
    apply runCallbacks_flag in H. exact H.
  - destruct (timer_keeps h sent s) as (Hsp & _ & Hd). rewrite Hsp, Hd.
    exact Hk.
  - unfold handle. run_script. exact Hk.
Qed.

Lemma sameSpinState_invariants (s s' : App) :
  sameSpinState s s' ->
  (guarded s -> guarded s') /\
  (disabledWhileSpinning s -> disabledWhileSpinning s').
Proof.
  unfold sameSpinState, guarded, disabledWhileSpinning.
  intros (Hsp & Haw & Hfr & _ & Hd).
  rewrite Hsp, Haw, Hfr, Hd. split; intros H; exact H.
Qed.

Lemma pageHandle_invariants (h : Host) (e : PageEvent) (p : Page) :
  guarded (script p) /\ disabledWhileSpinning (script p) ->
  guarded (script (fst (pageHandle h e p))) /\
  disabledWhileSpinning (script (fst (pageHandle h e p))).
Proof.
  intros [Hg Hk].
  assert (Hlift : forall ev,
             guarded (script (fst (lift (handle h ev) p))) /\
             disabledWhileSpinning (script (fst (lift (handle h ev) p)))).
  { intros ev. unfold lift. cbn [fst script set_script].
    split; [apply handle_guarded | apply handle_disabledWhileSpinning];
      assumption. }
  destruct e as [| settled | | | settled now | now | sent]; unfold pageHandle.
  - destruct (initPending p); [| split; assumption].
    match goal with
    | |- context [init h ?q] =>
        destruct (init_effects h q 0%Z) as (_ & _ & Hsame & _)
    end.
    apply sameSpinState_invariants in Hsame. cbn [script] in Hsame.
    destruct Hsame as [H1 H2]. split; [apply H1, Hg | apply H2, Hk].
  - destruct (awaitingCanSpin p) as [| w rest]; [split; assumption |].
    destruct (checkCanSpinResume_keeps h settled (script p)) as (Hsame & _).
    apply sameSpinState_invariants in Hsame. destruct Hsame as [H1 H2].
    cbn [fst initResume script]. split; [apply H1, Hg | apply H2, Hk].
  - destruct (spinListener p && negb (spinBtnDisabled (dom (script p))));
      [apply Hlift | split; assumption].
  - destruct (resultListener p); [apply Hlift | split; assumption].
  - apply Hlift.
  - apply Hlift.
  - apply Hlift.
Qed.

Lemma boot_invariants (h : Host) (loading : bool) (page : Dom) :
  guarded (script (fst (boot h loading page))) /\
  disabledWhileSpinning (script (fst (boot h loading page))).
Proof.
  assert (H0 : guarded (script (loaded page)) /\
               disabledWhileSpinning (script (loaded page))).
  { split; [reflexivity | intros H; discriminate H]. }
  unfold boot. destruct loading; cbn [fst script]; [exact H0 |].
  destruct (init_effects h (loaded page) 0%Z) as (_ & _ & Hsame & _).
  apply sameSpinState_invariants in Hsame. destruct Hsame as [H1 H2].
  destruct H0 as [Hg Hk]. split; [apply H1, Hg | apply H2, Hk].
Qed.

(** Once the button is disabled with no POST awaited, it stays so and no
    POST goes out. *)
Lemma pageHandle_sealed (h : Host) (e : PageEvent) (p : Page) (u : Z) :
  spinBtnDisabled (dom (script p)) = true ->
  awaitingSpin (script p) = [] ->
  spinBtnDisabled (dom (script (fst (pageHandle h e p)))) = true /\
  awaitingSpin (script (fst (pageHandle h e p))) = [] /\
  ~ In (OfScript (Fetch u)) (snd (pageHandle h e p)).
Proof.
  intros Hd Haw.
  destruct e as [| settled | | | settled now | now | sent]; unfold pageHandle.
  - destruct (initPending p); [| repeat split; auto].
    match goal with
    | |- context [init h ?q] =>
        destruct (init_effects h q u) as (_ & _ & Hsame & Hf & _)
    end.
    destruct Hsame as (_ & Ha & _ & _ & Hb). cbn [script] in Ha, Hb.
    rewrite Ha, Hb. repeat split; auto.
  - destruct (awaitingCanSpin p) as [| w rest]; [repeat split; auto |].
    destruct (checkCanSpinResume_keeps h settled (script p))
      as ((_ & Ha & _ & _ & Hb) & Hf & _).
    cbn [fst snd initResume script]. rewrite Ha, Hb.
    repeat split; auto. exact (no_fetch_lifted _ u Hf).
  - rewrite Hd, andb_false_r. repeat split; auto.
  - destruct (resultListener p); [| repeat split; auto].
    unfold lift. cbn [fst snd set_script script].
    split; [exact Hd |]. split; [exact Haw |]. apply lifted_fetch.
    discriminate.
  - unfold lift. cbn [fst snd set_script script].
    unfold handle. rewrite Haw. cbn [fst snd map].
    repeat split; auto.
  - unfold lift. cbn [fst snd set_script script].
    destruct (frame_keeps h now (script p)) as (Ha & _ & _ & Hb & _).
    rewrite Ha, Hb. repeat split; auto. apply lifted_fetch. discriminate.
  - unfold lift. cbn [fst snd set_script script].
    destruct (timer_keeps h sent (script p)) as (_ & Ha & Hb).
    rewrite Ha, Hb. repeat split; auto. apply lifted_fetch. discriminate.
Qed.

(** X22.  One award in the life of the page: once a POST that was awaited
    has been answered with success, the button stays disabled and no
    further POST goes out, whatever is clicked and whatever else
    arrives. *)
Theorem one_award_per_page
  (h : Host) (loading : bool) (page : Dom)
  (events1 events2 : list PageEvent)
  (settled : Completion Response) (now : Z) (u : Z) :
  awaitingSpin (script (fst (pageRun h events1 (fst (boot h loading page)))))
  <> [] ->
  failedSpin settled = false ->
  let p1 := fst (pageRun h events1 (fst (boot h loading page))) in
  let p2 := fst (pageHandle h (SpinReplySettled settled now) p1) in
  spinBtnDisabled (dom (script (fst (pageRun h events2 p2)))) = true /\
  ~ In (OfScript (Fetch u)) (snd (pageRun h events2 p2)).
Proof.
  intros Haw Hok p1 p2.
  assert (Hinv : forall evs p,
             guarded (script p) /\ disabledWhileSpinning (script p) ->
             guarded (script (fst (pageRun h evs p))) /\
             disabledWhileSpinning (script (fst (pageRun h evs p)))).
  { induction evs as [| e evs IH]; intros p Hp; [exact Hp |].
    cbn [pageRun fst]. apply IH, pageHandle_invariants, Hp. }
  destruct (Hinv events1 _ (boot_invariants h loading page)) as [Hg Hk].
  fold p1 in Hg, Hk, Haw.
  assert (Hsealed : spinBtnDisabled (dom (script p2)) = true /\
                    awaitingSpin (script p2) = []).
  { unfold guarded in Hg. unfold disabledWhileSpinning in Hk.
    destruct (awaitingSpin (script p1)) as [| w rest] eqn:Ha;
      [contradiction |].
    assert (Hsp : isSpinning (script p1) = true).
    { destruct (isSpinning (script p1)); [reflexivity |].
      simpl in Hg. lia. }
    assert (Hrest : rest = []).
    { rewrite Hsp in Hg. destruct rest; [reflexivity | simpl in Hg; lia]. }
    subst rest. specialize (Hk Hsp).
    subst p2. unfold pageHandle, lift. cbn [fst script set_script].
    unfold handle. rewrite Ha. unfold failedSpin in Hok.
    unfold andThen, assign, spinResume. cbn [fst snd].
    destruct settled as [response | x]; [| discriminate Hok].
    destruct (json response) as [data | x]; [| discriminate Hok].
    destruct (ok response); [| discriminate Hok].
    unfold animateSpin. run_script. split; [exact Hk | reflexivity]. }
  destruct Hsealed as [Hd Ha].
  clearbody p2. clear Hg Hk Haw Hinv p1.
  revert p2 Hd Ha. induction events2 as [| e evs IH]; intros p Hd Ha.
  - split; [exact Hd | intros []].
  - destruct (pageHandle_sealed h e p u Hd Ha) as (Hd' & Ha' & Hf').
    destruct (IH _ Hd' Ha') as [Hd'' Hf''].
    cbn [pageRun fst snd]. split; [exact Hd'' |].
    intros Hin. apply in_app_or in Hin. tauto.
Qed.

Lemma one_award_per_page_witness :
  awaitingSpin
    (script
       (fst (pageRun sampleHost
               (startEvents false
                  (Returns {| can_spin_ok := true;
                              can_spin_json :=
                                Returns {| data_can_spin := true;
                                           data_prior_prize := None |} |})
                ++ [SpinButtonClicked])
               (fst (boot sampleHost false samplePage)))))
  = [42%Z] /\
  ~ In (OfScript (Fetch 42))
       (snd (pageRun sampleHost [AnimationFrame 5000; SpinButtonClicked]
               (fst (pageHandle sampleHost
                       (SpinReplySettled
                          (Returns {| ok := true;
                                      json :=
                                        Returns {| data_error := None;
                                                   data_prize := Some 15000%Z |} |})
                          0)
                       (fst (pageRun sampleHost
                               (startEvents false
                                  (Returns {| can_spin_ok := true;
                                              can_spin_json :=
                                                Returns {| data_can_spin := true;
                                                           data_prior_prize := None |} |})
                                ++ [SpinButtonClicked])
                               (fst (boot sampleHost false samplePage)))))))).
Proof.
  assert (Haw :
    awaitingSpin
      (script
         (fst (pageRun sampleHost
                 (startEvents false
                    (Returns {| can_spin_ok := true;
                                can_spin_json :=
                                  Returns {| data_can_spin := true;
                                             data_prior_prize := None |} |})
                  ++ [SpinButtonClicked])
                 (fst (boot sampleHost false samplePage)))))
    = [42%Z]) by reflexivity.
  split; [exact Haw |].
  refine (proj2 (one_award_per_page sampleHost false samplePage
                   (startEvents false
                      (Returns {| can_spin_ok := true;
                                  can_spin_json :=
                                    Returns {| data_can_spin := true;
                                               data_prior_prize := None |} |})
                    ++ [SpinButtonClicked])
                   [AnimationFrame 5000; SpinButtonClicked]
                   (Returns {| ok := true;
                               json := Returns {| data_error := None;
                                                  data_prize := Some 15000%Z |} |})
                   0 42 _ eq_refl)).
  rewrite Haw. discriminate.
Defined.

(** ** The rotation target as the engine computes it *)

(** X23.  In binary64, with [Math.PI] and the rounding of every operation,
    [animateSpin] still lands every prize of the table: the residual angle
    is in [[0, 2 * Math.PI)], and on the wheel drawn at the rotation target
    the centre of the prize's segment is a whole number of turns from the
    pointer, six or seven, up to [2 ^ -40] of a turn. *)
Theorem binary64_spin_lands (p : Z) :
  In p PRIZES ->
  let i := indexOf PRIZES p in
  SFleb (S754_zero false) (Binary64.normalizedTargetAngle i) = true /\
  SFltb (Binary64.normalizedTargetAngle i)
        (Binary64.mul (Binary64.number 2) Binary64.PI) = true /\
  Binary64.near (Binary64.turnsPastPointer i) 6
  || Binary64.near (Binary64.turnsPastPointer i) 7 = true.
Proof.
  intros Hin. simpl in Hin.
  repeat (destruct Hin as [<- | Hin];
          [vm_compute; repeat split; reflexivity |]).
  destruct Hin.
Qed.

Lemma binary64_spin_lands_witness :
  In 25000%Z PRIZES /\
  Binary64.normalizedTargetAngle (indexOf PRIZES 25000) = S754_zero false /\
  Binary64.near (Binary64.turnsPastPointer (indexOf PRIZES 25000)) 6
  || Binary64.near (Binary64.turnsPastPointer (indexOf PRIZES 25000)) 7 = true.
Proof.
  assert (Hin : In 25000%Z PRIZES) by (simpl; tauto).
  split; [exact Hin |].
  split; [vm_compute; reflexivity |].
  exact (proj2 (proj2 (binary64_spin_lands 25000 Hin))).
Defined.
